(** * The alternating adversarial trainer of the precipitation-downscaling GAN

  Shallow embedding of the class [DownscalingGAN] of
  [tier_3/post_processing/precipitation_downscaling_gan.ipynb]
  ([__init__], [metrics], [compile], [train_step]) and of the call
  [gan.fit(dataset, epochs=30)] that drives it.

  Conventions of the embedding:
  - a tensor is seen along its batch axis: a batch of low-resolution
    (resp. high-resolution) samples is a [list LR] (resp. [list HR]);
    a [(B,1)] tensor of labels or of discriminator scores is a list of
    [B] scalars; [tf.concat(..., axis=0)] is list append;
  - scalars (losses, labels, noise values, pixels) are float32 values,
    carried as rationals; a float32 addition or division returns the
    rounding [round32] of the exact result.  The theorems hold for every
    rounding function (class [Float32]); concrete runs use the rounding
    to the nearest float32, ties to even ([IEEE.round_to_float32]).
    Infinities, NaN and overflow are not modelled here;
  - the networks, the loss function, reverse-mode differentiation, the
    optimizers and the random generator are opaque collaborators, the
    fields of the class [Backend];
  - [self.step_number = tf.Variable(0)] is an int32 variable: addition
    wraps around, [%] is the floored modulo;
  - the state of the random generator behind [tf.random.normal] is
    threaded through the calls;
  - Keras' [Mean] metric, [reset_metrics] and the epoch loop of [fit] are
    modelled as Keras documents them: [Mean] keeps a total and a count and
    reports [divide_no_nan(total, count)], in float32; [fit] resets, at the start of
    every epoch, the metrics the property [metrics] lists.

  Beside the trainer, the development covers the cells around it: the
  values handed to the logarithm, the average pooling and the split into
  a test and a training set (NumPy arrays of rank 4, as a shape and an
  indexing function), the batched dataset ([tf.data]), and the two
  network constructors as far as the shapes of their tensors go. *)

From Stdlib Require Import ZArith QArith Lia.
From stdpp Require Import gmap strings list fin_maps.

Set Default Proof Using "Type".

(** ** float32 arithmetic *)

(** The rounding of an exact result to a float32. *)
Class Float32 : Type := { round32 : Q -> Q }.

(** Rounding to the nearest float32, ties to even, with gradual underflow;
    the exponent is not bounded above. *)
Module IEEE.

(** [2^k <= m / b], for positive [m] and [b]. *)
Definition reaches (m b k : Z) : bool :=
  if (0 <=? k)%Z then (b * 2 ^ k <=? m)%Z else (b <=? m * 2 ^ (- k))%Z.

(** The exponent of a positive rational [m / b]: the [e] with
    [2^e <= m / b < 2^(e+1)]. *)
Definition exponent (m b : Z) : Z :=
  let e0 := (Z.log2 m - Z.log2 b)%Z in
  if reaches m b e0 then e0 else (e0 - 1)%Z.

(** The integer nearest to [num / den], the even one of the two in a
    tie. *)
Definition nearest_even (num den : Z) : Z :=
  let n := (num / den)%Z in
  let r := (num mod den)%Z in
  match (2 * r ?= den)%Z with
  | Lt => n
  | Gt => (n + 1)%Z
  | Eq => if Z.even n then n else (n + 1)%Z
  end.

(** The float32 nearest to [q]: a multiple of [2^(e-23)], where [e] is the
    exponent of [q], or [-126] for a subnormal result. *)
Definition round_to_float32 (q : Q) : Q :=
  let a := Qnum q in
  let b := Z.pos (Qden q) in
  if (a =? 0)%Z then 0%Q
  else
    let m := Z.abs a in
    let p := (Z.max (exponent m b) (-126) - 23)%Z in
    let n :=
      if (0 <=? p)%Z then nearest_even m (b * 2 ^ p)
      else nearest_even (m * 2 ^ (- p)) b in
    let v := if (0 <=? p)%Z then inject_Z (n * 2 ^ p)
             else Qred (n # Z.to_pos (2 ^ (- p))) in
    if (a <? 0)%Z then Qopp v else v.

(** float32 arithmetic as the hardware does it. *)
Definition float32 : Float32 := {| round32 := round_to_float32 |}.

End IEEE.

(** ** TensorFlow primitives used by the trainer *)
Module TF.

(** Two's complement wrap-around of an int32 result. *)
Definition wrap32 (x : Z) : Z := ((x + 2 ^ 31) mod 2 ^ 32 - 2 ^ 31)%Z.

(** [a + b] on int32 tensors. *)
Definition add32 (a b : Z) : Z := wrap32 (a + b).

(** [a % b] on int32 tensors: the floored modulo. *)
Definition floormod (a b : Z) : Z := (a mod b)%Z.

(** [tf.cond(pred, true_fn, false_fn)]: exactly one of the two callables
    runs. *)
Definition cond {A : Type} (pred : bool) (true_fn false_fn : unit -> A) : A :=
  if pred then true_fn tt else false_fn tt.

(** [tf.concat([a, b], axis=0)]. *)
Definition concat {A : Type} (a b : list A) : list A := a ++ b.

(** [tf.ones((n, 1))]. *)
Definition ones (n : nat) : list Q := replicate n 1%Q.

(** [tf.zeros((n, 1))]. *)
Definition zeros (n : nat) : list Q := replicate n 0%Q.

(** [tf.math.divide_no_nan(x, y)] on float32 tensors: [0] when the
    denominator is [0], the float32 quotient otherwise. *)
Definition divide_no_nan `{Float32} (x y : Q) : Q :=
  if Qeq_bool y 0 then 0%Q else round32 (x / y)%Q.

(** A dense tensor of scalars: its shape and its values in row-major
    order. *)
Record Tensor : Type := mkTensor { shape : list nat; values : list Q }.

Definition num_elements (s : list nat) : nat := foldr Nat.mul 1%nat s.

Section Random.
(** The state of the random generator, and one draw of a normal
    variate of the given mean and standard deviation. *)
Context {Rng : Type}.
Variable normal_draw : Q -> Q -> Rng -> Q * Rng.

Fixpoint draws (mean stddev : Q) (n : nat) (g : Rng) : list Q * Rng :=
  match n with
  | O => ([], g)
  | S k =>
      let '(x, g1) := normal_draw mean stddev g in
      let '(xs, g2) := draws mean stddev k g1 in
      (x :: xs, g2)
  end.

(** [tf.random.normal(shape, mean, stddev)]. *)
Definition random_normal (s : list nat) (mean stddev : Q) (g : Rng)
  : Tensor * Rng :=
  let '(xs, g') := draws mean stddev (num_elements s) g in
  (mkTensor s xs, g').
End Random.

End TF.

(** ** [keras.metrics.Mean] *)
Module Mean.

(** The two accumulators of the metric, float32 variables. *)
Record t : Type := mk { total : Q; count : Q }.

(** A freshly constructed metric. *)
Definition init : t := mk 0 0.

(** [update_state(value)] with a scalar: [total.assign_add(value)] and
    [count.assign_add(1)], both float32 additions. *)
Definition update_state `{Float32} (m : t) (value : Q) : t :=
  mk (round32 (total m + value)) (round32 (count m + 1)).

(** [result()]. *)
Definition result `{Float32} (m : t) : Q :=
  TF.divide_no_nan (total m) (count m).

(** [reset_state()]. *)
Definition reset_state (m : t) : t := init.

(** The total of a metric that was fed the values [l], in this order,
    since its construction or last reset. *)
Definition running_total `{Float32} (l : list Q) : Q :=
  foldl (fun acc value => round32 (acc + value)) 0%Q l.

(** Its count after [n] values. *)
Definition running_count `{Float32} (n : nat) : Q :=
  Nat.iter n (fun c => round32 (c + 1)) 0%Q.

(** What it reports: the float32 running mean of [l]. *)
Definition running_mean `{Float32} (l : list Q) : Q :=
  TF.divide_no_nan (running_total l) (running_count (length l)).

End Mean.

(** Which of the two closures of [train_step] a call runs. *)
Inductive Branch : Type := DiscriminatorBranch | GeneratorBranch.

#[global] Instance Branch_eq_dec : EqDecision Branch.
Proof. solve_decision. Defined.

(** The metric objects of the trainer, as [metrics] lists them. *)
Inductive Tracker : Type := GenLossTracker | DiscLossTracker.

(** ** The collaborators of the trainer *)

(** The framework objects the trainer is built from. *)
Class Backend : Type := {
  (** one low-resolution and one high-resolution sample *)
  LR : Type;
  HR : Type;
  (** the trainable weights of the discriminator and of the generator *)
  WD : Type;
  WG : Type;
  (** the states of the two optimizers *)
  OptD : Type;
  OptG : Type;
  (** the state of the generator behind [tf.random.normal] *)
  Rng : Type;
  (** [self.generator([samples_lr, noise])] under the given weights *)
  generator : WG -> list LR -> TF.Tensor -> list HR;
  (** [self.discriminator([samples_lr, samples_hr])]: one score per sample *)
  discriminator : WD -> list LR -> list HR -> list Q;
  (** [self.loss_fn(labels, predictions)] *)
  loss_fn : list Q -> list Q -> Q;
  (** [tape.gradient(loss, weights)]: the gradient, at the current weights,
      of the loss recorded on the tape as a function of these weights *)
  gradient_d : (WD -> Q) -> WD -> WD;
  gradient_g : (WG -> Q) -> WG -> WG;
  (** [optimizer.apply_gradients(zip(grads, weights))]: the new optimizer
      state and the new weights *)
  apply_gradients_d : OptD -> WD -> WD -> OptD * WD;
  apply_gradients_g : OptG -> WG -> WG -> OptG * WG;
  (** one normal variate of the given mean and standard deviation *)
  normal_draw : Q -> Q -> Rng -> Q * Rng;
  (** the float32 arithmetic of the framework *)
  float32 :: Float32
}.

(** ** The trainer *)
Section DownscalingGAN.

Context `{B : Backend}.

(** The object after [__init__]. *)
Record Initialized : Type := mkInitialized {
  i_discriminator : WD;
  i_generator : WG;
  i_noise_shape : list nat;
  i_gen_loss_tracker : Mean.t;
  i_disc_loss_tracker : Mean.t;
  i_step_number : Z
}.

(** The object after [compile]: the optimizers are set. *)
Record GAN : Type := mkGAN {
  discriminator_weights : WD;
  generator_weights : WG;
  noise_shape : list nat;
  gen_loss_tracker : Mean.t;
  disc_loss_tracker : Mean.t;
  step_number : Z;
  d_optimizer : OptD;
  g_optimizer : OptG
}.

(** One element of the dataset: [(samples_lr, samples_hr)]. *)
Definition Batch : Type := (list LR * list HR)%type.

(** The default of the parameter [noise_shape] of [__init__]. *)
Definition default_noise_shape : list nat := [4; 4; 8]%nat.

(** [DownscalingGAN.__init__]. *)
Definition init (discriminator0 : WD) (generator0 : WG)
    (noise_shape0 : list nat) : Initialized :=
  mkInitialized discriminator0 generator0 noise_shape0
    Mean.init Mean.init 0%Z.

(** [DownscalingGAN.compile]. *)
Definition compile (self : Initialized) (d_opt : OptD) (g_opt : OptG) : GAN :=
  mkGAN (i_discriminator self) (i_generator self) (i_noise_shape self)
    (i_gen_loss_tracker self) (i_disc_loss_tracker self)
    (i_step_number self) d_opt g_opt.

(** [gan = DownscalingGAN(discriminator, generator)] followed by
    [gan.compile(...)], as the notebook constructs its trainer. *)
Definition fresh (discriminator0 : WD) (generator0 : WG)
    (d_opt : OptD) (g_opt : OptG) : GAN :=
  compile (init discriminator0 generator0 default_noise_shape) d_opt g_opt.

(** [DownscalingGAN.metrics]. *)
Definition metrics (self : GAN) : list Tracker :=
  [GenLossTracker; DiscLossTracker].

(** Reading and writing a listed metric object of the trainer. *)
Definition get_tracker (self : GAN) (r : Tracker) : Mean.t :=
  match r with
  | GenLossTracker => gen_loss_tracker self
  | DiscLossTracker => disc_loss_tracker self
  end.

Definition set_tracker (self : GAN) (r : Tracker) (m : Mean.t) : GAN :=
  match r with
  | GenLossTracker =>
      mkGAN (discriminator_weights self) (generator_weights self)
        (noise_shape self) m (disc_loss_tracker self)
        (step_number self) (d_optimizer self) (g_optimizer self)
  | DiscLossTracker =>
      mkGAN (discriminator_weights self) (generator_weights self)
        (noise_shape self) (gen_loss_tracker self) m
        (step_number self) (d_optimizer self) (g_optimizer self)
  end.

(** *** The discriminator closure of [train_step] *)

Definition combined_samples_hr (self : GAN) (samples_lr : list LR)
    (samples_hr : list HR) (noise : TF.Tensor) : list HR :=
  let samples_gen := generator (generator_weights self) samples_lr noise in
  TF.concat samples_gen samples_hr.

Definition combined_samples_lr (samples_lr : list LR) : list LR :=
  TF.concat samples_lr samples_lr.

Definition labels (batch_size : nat) : list Q :=
  TF.concat (TF.ones batch_size) (TF.zeros batch_size).

(** The loss recorded on the tape, as a function of the discriminator's
    weights. *)
Definition d_loss_of (self : GAN) (samples_lr : list LR)
    (samples_hr : list HR) (batch_size : nat) (noise : TF.Tensor)
    (w : WD) : Q :=
  let predictions :=
    discriminator w (combined_samples_lr samples_lr)
      (combined_samples_hr self samples_lr samples_hr noise) in
  loss_fn (labels batch_size) predictions.

Definition d_loss (self : GAN) (samples_lr : list LR)
    (samples_hr : list HR) (batch_size : nat) (noise : TF.Tensor) : Q :=
  d_loss_of self samples_lr samples_hr batch_size noise
    (discriminator_weights self).

Definition train_discriminator (self : GAN) (samples_lr : list LR)
    (samples_hr : list HR) (batch_size : nat) (noise : TF.Tensor) : GAN :=
  let loss := d_loss self samples_lr samples_hr batch_size noise in
  let grads :=
    gradient_d (d_loss_of self samples_lr samples_hr batch_size noise)
      (discriminator_weights self) in
  let '(opt', w') :=
    apply_gradients_d (d_optimizer self) grads (discriminator_weights self) in
  mkGAN w' (generator_weights self) (noise_shape self)
    (gen_loss_tracker self)
    (Mean.update_state (disc_loss_tracker self) loss)
    (step_number self) opt' (g_optimizer self).

(** *** The generator closure of [train_step] *)

Definition misleading_labels (batch_size : nat) : list Q :=
  TF.zeros batch_size.

(** The loss recorded on the tape, as a function of the generator's
    weights. *)
Definition g_loss_of (self : GAN) (samples_lr : list LR)
    (batch_size : nat) (noise : TF.Tensor) (w : WG) : Q :=
  let samples_gen := generator w samples_lr noise in
  let predictions :=
    discriminator (discriminator_weights self) samples_lr samples_gen in
  loss_fn (misleading_labels batch_size) predictions.

Definition g_loss (self : GAN) (samples_lr : list LR)
    (batch_size : nat) (noise : TF.Tensor) : Q :=
  g_loss_of self samples_lr batch_size noise (generator_weights self).

Definition train_generator (self : GAN) (samples_lr : list LR)
    (batch_size : nat) (noise : TF.Tensor) : GAN :=
  let loss := g_loss self samples_lr batch_size noise in
  let grads :=
    gradient_g (g_loss_of self samples_lr batch_size noise)
      (generator_weights self) in
  let '(opt', w') :=
    apply_gradients_g (g_optimizer self) grads (generator_weights self) in
  mkGAN (discriminator_weights self) w' (noise_shape self)
    (Mean.update_state (gen_loss_tracker self) loss)
    (disc_loss_tracker self)
    (step_number self) (d_optimizer self) opt'.

(** *** [train_step] *)

(** [self.step_number.assign(self.step_number+1)]. *)
Definition increment_step (self : GAN) : GAN :=
  mkGAN (discriminator_weights self) (generator_weights self)
    (noise_shape self) (gen_loss_tracker self) (disc_loss_tracker self)
    (TF.add32 (step_number self) 1) (d_optimizer self) (g_optimizer self).

(** The dictionary [train_step] returns. *)
Definition logs (self : GAN) : gmap string Q :=
  {[ "g_loss" := Mean.result (gen_loss_tracker self);
     "d_loss" := Mean.result (disc_loss_tracker self) ]}.

(** The noise of one call: [tf.random.normal(shape=(batch_size,) +
    self.noise_shape)], with the default mean [0] and standard deviation
    [1]. *)
Definition sample_noise (self : GAN) (batch_size : nat) (g : Rng)
    : TF.Tensor * Rng :=
  TF.random_normal normal_draw (batch_size :: noise_shape self) 0 1 g.

(** What follows the draw of the noise in [train_step]. *)
Definition train_step_with (self : GAN) (samples_lr : list LR)
    (samples_hr : list HR) (batch_size : nat) (noise : TF.Tensor)
    : gmap string Q * GAN :=
  let self1 :=
    TF.cond (TF.floormod (step_number self) 2 =? 0)%Z
      (fun _ => train_discriminator self samples_lr samples_hr batch_size noise)
      (fun _ => train_generator self samples_lr batch_size noise) in
  let self2 := increment_step self1 in
  (logs self2, self2).

Definition train_step (self : GAN) (data : Batch) (g : Rng)
    : gmap string Q * GAN * Rng :=
  let '(samples_lr, samples_hr) := data in
  let batch_size := length samples_hr in
  let '(noise, g') := sample_noise self batch_size g in
  (train_step_with self samples_lr samples_hr batch_size noise, g').

(** *** Observing a call *)

(** The closure the [tf.cond] of [train_step] selects in a state. *)
Definition branch_of (self : GAN) : Branch :=
  if (TF.floormod (step_number self) 2 =? 0)%Z
  then DiscriminatorBranch else GeneratorBranch.

(** The loss computed by the closure a call runs ([d_loss] or [g_loss]). *)
Definition step_loss (self : GAN) (data : Batch) (g : Rng) : Q :=
  let '(samples_lr, samples_hr) := data in
  let batch_size := length samples_hr in
  let noise := (sample_noise self batch_size g).1 in
  match branch_of self with
  | DiscriminatorBranch => d_loss self samples_lr samples_hr batch_size noise
  | GeneratorBranch => g_loss self samples_lr batch_size noise
  end.

(** The state the selected closure leaves, before the counter moves. *)
Definition after_branch (self : GAN) (samples_lr : list LR)
    (samples_hr : list HR) (batch_size : nat) (noise : TF.Tensor) : GAN :=
  match branch_of self with
  | DiscriminatorBranch =>
      train_discriminator self samples_lr samples_hr batch_size noise
  | GeneratorBranch => train_generator self samples_lr batch_size noise
  end.

(** What one call did: the closure it ran, the loss this closure computed
    and the dictionary the call returned. *)
Record Event : Type := mkEvent {
  ev_branch : Branch;
  ev_loss : Q;
  ev_logs : gmap string Q
}.

(** A sequence of [train_step] calls, one per batch. *)
Fixpoint run (self : GAN) (g : Rng) (calls : list Batch)
    : list Event * (GAN * Rng) :=
  match calls with
  | [] => ([], (self, g))
  | data :: rest =>
      let '(out, self', g') := train_step self data g in
      let '(evs, fin) := run self' g' rest in
      (mkEvent (branch_of self) (step_loss self data g) out :: evs, fin)
  end.

(** The losses a sequence of calls recorded for one network. *)
Definition losses_of (b : Branch) (evs : list Event) : list Q :=
  ev_loss <$> filter (fun e => ev_branch e = b) evs.

(** *** The driver *)

(** Keras' [Model.reset_metrics]: [reset_state] on every metric the
    property [metrics] lists. *)
Definition reset_metrics (self : GAN) : GAN :=
  foldl (fun s r => set_tracker s r (Mean.reset_state (get_tracker s r)))
    self (metrics self).

(** Keras' [Model.fit(dataset, epochs)], as far as the trainer sees it: at
    the start of every epoch the metrics are reset, then [train_step] runs
    once per batch of the epoch.  [epochs] lists, for every epoch, the
    batches the shuffled dataset delivers in it. *)
Fixpoint fit (self : GAN) (g : Rng) (epochs : list (list Batch))
    : list (list Event) * (GAN * Rng) :=
  match epochs with
  | [] => ([], (self, g))
  | batches :: rest =>
      let '(evs, (self1, g1)) := run (reset_metrics self) g batches in
      let '(evss, fin) := fit self1 g1 rest in
      (evs :: evss, fin)
  end.

End DownscalingGAN.




(** The sum and the arithmetic mean of a list of scalars. *)
Definition Qsum (l : list Q) : Q := foldr Qplus 0%Q l.

Definition Qmean (l : list Q) : Q :=
  (Qsum l / inject_Z (Z.of_nat (length l)))%Q.

(** ** A small concrete backend

    One rational per sample and per network; used to run the trainer on
    concrete batches. *)
Module Stub.

Definition stub_generator (w : Q) (lr : list Q) (noise : TF.Tensor) : list Q :=
  (fun x => Qred (w * x + hd 0 (TF.values noise))%Q) <$> lr.

Definition stub_discriminator (w : Q) (lr hr : list Q) : list Q :=
  zip_with (fun x y => (w * (y - x))%Q) lr hr.

Definition stub_loss (labels predictions : list Q) : Q :=
  Qsum (zip_with (fun y p => ((p - y) * (p - y))%Q) labels predictions).

Definition stub_gradient (f : Q -> Q) (w : Q) : Q := (f (w + 1) - f w)%Q.

(** Sign descent with step [1/4]; the state counts the updates. *)
Definition stub_apply (n : nat) (grad w : Q) : nat * Q :=
  (S n,
   match (grad ?= 0)%Q with
   | Gt => Qred (w - (1 # 4))
   | Lt => Qred (w + (1 # 4))
   | Eq => w
   end).

Definition stub_draw (mean stddev : Q) (g : Z) : Q * Z :=
  (Qred (mean + stddev * inject_Z (g mod 3 - 1)), ((g + 1) mod 7)%Z).

#[export] Instance backend : Backend := {|
  LR := Q; HR := Q; WD := Q; WG := Q; OptD := nat; OptG := nat; Rng := Z;
  generator := stub_generator;
  discriminator := stub_discriminator;
  loss_fn := stub_loss;
  gradient_d := stub_gradient;
  gradient_g := stub_gradient;
  apply_gradients_d := stub_apply;
  apply_gradients_g := stub_apply;
  normal_draw := stub_draw;
  float32 := IEEE.float32
|}.

(** A trainer as the notebook builds it, and two batches of two samples. *)
Definition gan0 : GAN := fresh (1%Q : WD) (1%Q : WG) (0%nat : OptD) (0%nat : OptG).

Definition batch1 : Batch := ([1%Q; 2%Q], [3%Q; 5%Q]).

Definition batch2 : Batch := ([2%Q; 0%Q], [1%Q; 4%Q]).

(** The state of the random generator before the first call. *)
Definition seed : Rng := 5%Z.

(** The trainer and the random generator after one call on [batch1]. *)
Definition gan1 : GAN := (train_step gan0 batch1 seed).1.2.

Definition seed1 : Rng := (train_step gan0 batch1 seed).2.

(** [gan0] with other values in a tracker and in the optimizers. *)
Definition gan0' : GAN :=
  mkGAN (discriminator_weights gan0) (generator_weights gan0)
    (noise_shape gan0) (Mean.mk 5 2) (disc_loss_tracker gan0)
    (step_number gan0) 3%nat 4%nat.

(** A training of two epochs of one batch each. *)
Definition two_epochs : list (list Event) * (GAN * Rng) :=
  fit gan0 seed [[batch1]; [batch2]].

End Stub.

(** ** The trainer under its driver *)
Section Driver.

Context `{B : Backend}.

(** Two trainers that agree on everything but their trackers: the weights
    and optimizers of both networks, the step counter and the noise
    shape. *)
Definition same_training (s1 s2 : GAN) : Prop :=
  discriminator_weights s1 = discriminator_weights s2
  /\ generator_weights s1 = generator_weights s2
  /\ noise_shape s1 = noise_shape s2
  /\ step_number s1 = step_number s2
  /\ d_optimizer s1 = d_optimizer s2
  /\ g_optimizer s1 = g_optimizer s2.

End Driver.

(** ** The training dataset: [tf.data] *)
Module Dataset.

(** [Dataset.from_tensor_slices((a, b))]: the slices of the two arrays
    along their first axis, paired; an error when the two first dimensions
    differ. *)
Definition from_tensor_slices {A B : Type} (a : list A) (b : list B)
    : option (list (A * B)) :=
  if decide (length a = length b) then Some (zip a b) else None.

(** The iterator of [batch]: elements are gathered in [cur] until there are
    [n] of them, which makes a batch; at the end of the input what was
    gathered, if anything, makes a last, smaller batch. *)
Fixpoint batch_from {A : Type} (n : nat) (cur l : list A) : list (list A) :=
  match l with
  | [] => match cur with [] => [] | _ :: _ => [cur] end
  | x :: l' =>
      let cur' := cur ++ [x] in
      if (length cur' =? n)%nat then cur' :: batch_from n [] l'
      else batch_from n cur' l'
  end.

(** [ds.batch(n)] (the remainder is kept); an error when [n] is not
    positive. *)
Definition batch {A : Type} (n : nat) (ds : list A) : option (list (list A)) :=
  match n with
  | O => None
  | S _ => Some (batch_from n [] ds)
  end.

(** The elements of a batch stacked, component by component. *)
Definition stack {A B : Type} (chunk : list (A * B)) : list A * list B :=
  (chunk.*1, chunk.*2).

End Dataset.

(** [batch_size = 64]. *)
Definition batch_size : nat := 64.

(** One pass over [dataset], that is over
    [Dataset.from_tensor_slices((samples_lr, samples)).shuffle(256).batch(batch_size)].
    The order in which [shuffle] hands on the elements in this pass is
    [shuffle]. *)
Definition dataset {A B : Type} (shuffle : list (A * B) -> list (A * B))
    (samples_lr : list A) (samples : list B) : option (list (list A * list B)) :=
  match Dataset.from_tensor_slices samples_lr samples with
  | None => None
  | Some elements =>
      match Dataset.batch batch_size (shuffle elements) with
      | None => None
      | Some chunks => Some (Dataset.stack <$> chunks)
      end
  end.

(** ** NumPy arrays of rank 4 *)
Module Np.

(** An array of shape [(d0, d1, d2, d3)]: (sample, row, column, channel).
    [at_ a n y x c] is the element at this index when the index lies
    within the shape, and is of no account otherwise. *)
Record Array4 : Type := mkArray {
  d0 : nat;
  d1 : nat;
  d2 : nat;
  d3 : nat;
  at_ : nat -> nat -> nat -> nat -> Q
}.

(** [np.zeros(shape, dtype)]. *)
Definition zeros (shape : nat * nat * nat * nat) : Array4 :=
  let '(n0, n1, n2, n3) := shape in
  mkArray n0 n1 n2 n3 (fun _ _ _ _ => 0%Q).

(** The length of the slice [start::step] of an axis of length [len]
    ([0 <= start], [0 < step]): the indices [start], [start + step], ...
    below [len]. *)
Definition slice_len (len start step : nat) : nat :=
  ((len - start + (step - 1)) / step)%nat.

(** The view [a[:, i::step, j::step, :]]. *)
Definition strided (a : Array4) (i j step : nat) : Array4 :=
  mkArray (d0 a) (slice_len (d1 a) i step) (slice_len (d2 a) j step) (d3 a)
    (fun n y x c => at_ a n (i + step * y) (j + step * x) c).

(** Broadcasting an operand into the target of an in-place operation: along
    every axis the operand has the length of the target or length 1. *)
Definition broadcastable (src dst : nat) : bool :=
  (src =? dst)%nat || (src =? 1)%nat.

(** The index read along an axis of the operand. *)
Definition bidx (src k : nat) : nat := if (src =? 1)%nat then 0%nat else k.

(** The element of the operand [b] that is combined with the element of
    the target at an index. *)
Definition read (b : Array4) (n y x c : nat) : Q :=
  at_ b (bidx (d0 b) n) (bidx (d1 b) y) (bidx (d2 b) x) (bidx (d3 b) c).

(** [a += b] on float32 arrays: every element of [a] becomes the float32
    sum of itself and of the element of [b] read at its index; an error
    when [b] cannot be broadcast into [a]. *)
Definition iadd `{Float32} (a b : Array4) : option Array4 :=
  if broadcastable (d0 b) (d0 a) && broadcastable (d1 b) (d1 a)
     && broadcastable (d2 b) (d2 a) && broadcastable (d3 b) (d3 a)
  then Some (mkArray (d0 a) (d1 a) (d2 a) (d3 a)
               (fun n y x c => round32 (at_ a n y x c + read b n y x c)%Q))
  else None.

(** The shape of an array. *)
Definition shape (a : Array4) : nat * nat * nat * nat :=
  (d0 a, d1 a, d2 a, d3 a).

(** [a /= k] on a float32 array, for an integer [k]: the float32 quotient
    of every element by [k] as a float32. *)
Definition idiv `{Float32} (a : Array4) (k : nat) : Array4 :=
  mkArray (d0 a) (d1 a) (d2 a) (d3 a)
    (fun n y x c =>
       round32 (at_ a n y x c / round32 (inject_Z (Z.of_nat k)))%Q).

(** [a[idx, ...]] for a list of non-negative indices: the samples at these
    indices, in this order; an error when an index is out of bounds. *)
Definition take_rows (a : Array4) (idx : list nat) : option Array4 :=
  if forallb (fun i => i <? d0 a)%nat idx
  then Some (mkArray (length idx) (d1 a) (d2 a) (d3 a)
               (fun n y x c => at_ a (nth n idx 0%nat) y x c))
  else None.

(** A [for] loop over a range whose body may raise. *)
Fixpoint for_each {S : Type} (range : list nat) (body : nat -> S -> option S)
    (s : S) : option S :=
  match range with
  | [] => Some s
  | i :: rest =>
      match body i s with
      | None => None
      | Some s' => for_each rest body s'
      end
  end.

End Np.

(** ** Setting up the data *)

(** [rf = 8], the resolution factor. *)
Definition rf : nat := 8.

(** [lr_shape], for a resolution factor [r]. *)
Definition lr_shape (r : nat) (samples : Np.Array4) : nat * nat * nat * nat :=
  (Np.d0 samples, (Np.d1 samples / r)%nat, (Np.d2 samples / r)%nat,
   Np.d3 samples).

(** The low-resolution array: the cell that fills [samples_lr] from
    [samples] by average pooling, for a resolution factor [r].  [//] raises
    when [r] is zero. *)
Definition average_pool `{Float32} (r : nat) (samples : Np.Array4)
    : option Np.Array4 :=
  match r with
  | O => None
  | S _ =>
      let samples_lr := Np.zeros (lr_shape r samples) in
      match
        Np.for_each (seq 0 r)
          (fun i acc =>
             Np.for_each (seq 0 r)
               (fun j acc' => Np.iadd acc' (Np.strided samples i j r))
               acc)
          samples_lr
      with
      | None => None
      | Some filled => Some (Np.idiv filled (r ^ 2))
      end
  end.

(** [N_testing = int(samples.shape[0]*0.1)].  For every [n] below [2^49]
    the double [n*0.1] truncates to the integer quotient of [n] by 10. *)
Definition N_testing (n : nat) : nat := (n / 10)%nat.

(** The arrays the data cell leaves. *)
Record Prepared : Type := mkPrepared {
  samples_test : Np.Array4;
  samples_train : Np.Array4;
  samples_lr_test : Np.Array4;
  samples_lr_train : Np.Array4
}.

(** The data cell: pooling, then the split of both arrays along [indices],
    the shuffled [np.arange(samples.shape[0])]. *)
Definition prepare `{Float32} (r : nat) (indices : list nat)
    (samples : Np.Array4) : option Prepared :=
  match average_pool r samples with
  | None => None
  | Some samples_lr =>
      let k := N_testing (Np.d0 samples) in
      match Np.take_rows samples (take k indices),
            Np.take_rows samples (drop k indices),
            Np.take_rows samples_lr (take k indices),
            Np.take_rows samples_lr (drop k indices) with
      | Some s_test, Some s_train, Some lr_test, Some lr_train =>
          Some (mkPrepared s_test s_train lr_test lr_train)
      | _, _, _, _ => None
      end
  end.

(** The float32 total of the [r] by [r] block of sample [n] and channel
    [c] whose corner is at row [r * y] and column [r * x], its elements
    added one by one in the order of the two loops. *)
Definition block_total `{Float32} (r : nat) (a : Np.Array4) (n y x c : nat)
    : Q :=
  foldl (fun acc i =>
           foldl (fun acc' j =>
                    round32 (acc' + Np.at_ a n (i + r * y) (j + r * x) c))
             acc (seq 0 r))
    0%Q (seq 0 r).

(** The float32 mean of that block: its float32 total divided, in float32,
    by [r ^ 2]. *)
Definition block_mean `{Float32} (r : nat) (a : Np.Array4) (n y x c : nat)
    : Q :=
  round32 (block_total r a n y x c / round32 (inject_Z (Z.of_nat (r ^ 2)))).

(** ** The two networks, as far as shapes go

    The architecture cell builds the networks layer by layer.  Each
    symbolic tensor is represented by its shape without the batch axis,
    (rows, columns, channels), all positive; building fails where Keras
    raises an error. *)
Module Layers.

Definition Shape : Type := (positive * positive * positive)%type.

(** [Concatenate()([a, b])], along the last axis: the other axes have to
    agree. *)
Definition concatenate (a b : Shape) : option Shape :=
  let '(ha, wa, ca) := a in
  let '(hb, wb, cb) := b in
  if decide (ha = hb /\ wa = wb) then Some (ha, wa, (ca + cb)%positive)
  else None.

(** The length of an axis after a convolution with [padding='same'] and
    the given stride: [ceil(n / stride)]. *)
Definition same_length (stride n : positive) : positive :=
  Z.to_pos ((Z.pos n + Z.pos stride - 1) / Z.pos stride).

(** [Conv2D(filters, kernel_size, padding='same', strides=stride)]. *)
Definition conv2d_same (filters stride : positive) (x : Shape) : Shape :=
  let '(h, w, _) := x in
  (same_length stride h, same_length stride w, filters).

(** [Conv2D(filters, kernel_size=(k, k))] with the default
    [padding='valid'] and stride 1: an axis shorter than the kernel is an
    error. *)
Definition conv2d_valid (filters k : positive) (x : Shape) : option Shape :=
  let '(h, w, _) := x in
  if decide (k <= h /\ k <= w)%positive
  then Some (Z.to_pos (Z.pos h - Z.pos k + 1),
             Z.to_pos (Z.pos w - Z.pos k + 1), filters)
  else None.

(** [LeakyReLU(alpha)]. *)
Definition leaky_relu_layer (x : Shape) : Shape := x.

(** [UpSampling2D(interpolation='bilinear')], with the default size
    [(2, 2)]. *)
Definition upsampling2d (x : Shape) : Shape :=
  let '(h, w, c) := x in ((2 * h)%positive, (2 * w)%positive, c).

(** [GlobalAveragePooling2D()]: one value per channel. *)
Definition global_average_pooling2d (x : Shape) : positive :=
  let '(_, _, c) := x in c.

(** [Dense(units)]. *)
Definition dense (units : positive) (features : positive) : positive := units.

End Layers.

(** The upsampling stages of [create_generator]. *)
Definition generator_stages (block_widths : list positive) (x : Layers.Shape)
    : Layers.Shape :=
  foldl (fun x width =>
           Layers.leaky_relu_layer
             (Layers.conv2d_same width 1 (Layers.upsampling2d x)))
    x block_widths.

(** [create_generator]: the shape of the output of the model. *)
Definition create_generator (block_widths : list positive)
    (input_shape noise_shape : Layers.Shape) : option Layers.Shape :=
  match Layers.concatenate input_shape noise_shape with
  | None => None
  | Some x =>
      match block_widths with
      | [] => None
      | width0 :: _ =>
          let x := Layers.leaky_relu_layer (Layers.conv2d_same width0 1 x) in
          let x := generator_stages block_widths x in
          Layers.conv2d_valid 1 1 x
      end
  end.

(** The downsampling loop of [create_discriminator], on the two branches
    together. *)
Definition discriminator_stages (block_widths : list positive)
    (x_hr x_lr : Layers.Shape) : Layers.Shape * Layers.Shape :=
  foldl (fun '(x_hr, x_lr) width =>
           (Layers.leaky_relu_layer (Layers.conv2d_same width 2 x_hr),
            Layers.leaky_relu_layer (Layers.conv2d_same width 1 x_lr)))
    (x_hr, x_lr) block_widths.

(** The joint processing: [postproc_convs] convolutions of width
    [block_widths[-1]]. *)
Definition postprocessing (last_width : positive) (postproc_convs : nat)
    (x : Layers.Shape) : Layers.Shape :=
  Nat.iter postproc_convs
    (fun x => Layers.leaky_relu_layer (Layers.conv2d_same last_width 1 x)) x.

(** [create_discriminator]: the number of scores per sample the model
    returns. *)
Definition create_discriminator (block_widths : list positive)
    (input_shape_hr input_shape_lr : Layers.Shape) (postproc_convs : nat)
    : option positive :=
  match block_widths with
  | [] => None
  | width0 :: _ =>
      let x_hr :=
        Layers.leaky_relu_layer (Layers.conv2d_same width0 1 input_shape_hr) in
      let x_lr :=
        Layers.leaky_relu_layer (Layers.conv2d_same width0 1 input_shape_lr) in
      let '(x_hr, x_lr) := discriminator_stages block_widths x_hr x_lr in
      match Layers.concatenate x_hr x_lr with
      | None => None
      | Some x =>
          let x := postprocessing (List.last block_widths width0)
                     postproc_convs x in
          let x := Layers.global_average_pooling2d x in
          Some (Layers.dense 1 x)
      end
  end.

(** The default arguments of the two constructors. *)
Definition generator_block_widths : list positive := [128; 64; 32]%positive.

Definition discriminator_block_widths : list positive := [32; 64; 128]%positive.

Definition input_shape_lr : Layers.Shape := (4, 4, 1)%positive.

Definition input_shape_hr : Layers.Shape := (32, 32, 1)%positive.

Definition input_noise_shape : Layers.Shape := (4, 4, 8)%positive.

(** ** Activations, on one scalar *)

(** [activation='relu']. *)
Definition relu (x : Q) : Q := if Qle_bool 0 x then x else 0%Q.

(** [LeakyReLU(alpha)]. *)
Definition leaky_relu (alpha x : Q) : Q :=
  if Qle_bool 0 x then x else (alpha * x)%Q.

(** ** Loading the data: the values before the logarithm *)
Module Float.

(** A float: a finite value, here a rational, or one of the three
    non-finite values. *)
Inductive t : Type := Finite (q : Q) | PosInf | NegInf | NaN.

(** [np.isfinite]. *)
Definition isfinite (x : t) : bool :=
  match x with
  | Finite _ => true
  | PosInf | NegInf | NaN => false
  end.

(** [x < c] for a finite constant [c]; a comparison with NaN is false. *)
Definition lt_const (x : t) (c : Q) : bool :=
  match x with
  | Finite q => negb (Qle_bool c q)
  | NegInf => true
  | PosInf | NaN => false
  end.

End Float.

(** [samples[~np.isfinite(samples)] = 0], element by element. *)
Definition fill_missing (samples : list Float.t) : list Float.t :=
  (fun x => if Float.isfinite x then x else Float.Finite 0) <$> samples.

(** [samples[samples < 0.1] = 0.02], element by element. *)
Definition threshold (samples : list Float.t) : list Float.t :=
  (fun x => if Float.lt_const x (1 # 10) then Float.Finite (2 # 100) else x)
    <$> samples.

(** The scaled samples as [np.log10] receives them. *)
Definition before_log (samples : list Float.t) : list Float.t :=
  threshold (fill_missing samples).

(** [indices = [2,5,14,16,17,19,28,37]], the examples shown from the test
    set. *)
Definition showcase_indices : list nat := [2; 5; 14; 16; 17; 19; 28; 37]%nat.

(** ** Small concrete data *)
Module Demo.

(** Twenty samples of 4 by 6 pixels and one channel. *)
Definition images : Np.Array4 :=
  Np.mkArray 20 4 6 1
    (fun n y x _ => inject_Z (Z.of_nat (100 * n + 10 * y + x))).

(** One sample of 2 by 2 pixels: [1], then three times [2^-24]. *)
Definition tiny : Np.Array4 :=
  Np.mkArray 1 2 2 1
    (fun _ y x _ =>
       match y, x with
       | O, O => 1%Q
       | _, _ => (1 # 16777216)%Q
       end).

(** A rearrangement of the twenty sample indices. *)
Definition order : list nat := reverse (seq 0 20).

(** A hundred and thirty low-resolution and high-resolution samples, by
    their numbers. *)
Definition lows : list nat := seq 0 130.

Definition highs : list nat := seq 1000 130.

(** A pass that hands on the pairs in the reverse order. *)
Definition backwards : list (nat * nat) -> list (nat * nat) := reverse.

End Demo.

(** ** Properties *)

(** *** int32 arithmetic of the step counter *)



(** *** The metric *)

Section MeanProperties.

Context `{F : Float32}.

Lemma Mean_foldl_total (l : list Q) (m : Mean.t) :
  Mean.total (foldl Mean.update_state m l)
  = foldl (fun acc value => round32 (acc + value)) (Mean.total m) l.
Proof.
  revert m. induction l as [|x l IH]; intros m; [reflexivity|].
  cbn [foldl]. rewrite IH. reflexivity.
Qed.

Lemma Mean_foldl_count (l : list Q) (m : Mean.t) :
  Mean.count (foldl Mean.update_state m l)
  = Nat.iter (length l) (fun c => round32 (c + 1)) (Mean.count m).
Proof.
  revert m. induction l as [|x l IH]; intros m; [reflexivity|].
  cbn [foldl length]. rewrite IH, Nat.iter_succ_r. reflexivity.
Qed.

(** A metric that was fed the values [l] since its construction or last
    reset reports their float32 running mean. *)
Lemma Mean_result_running_mean (l : list Q) :
  Mean.result (foldl Mean.update_state Mean.init l) = Mean.running_mean l.
Proof.
  unfold Mean.result, Mean.running_mean, Mean.running_total,
    Mean.running_count.
  rewrite Mean_foldl_total, Mean_foldl_count. reflexivity.
Qed.

(** With exact arithmetic the running mean is the arithmetic mean. *)
Lemma running_mean_exact (l : list Q) :
  (forall q, (round32 q == q)%Q) ->
  (Mean.running_mean l == Qmean l)%Q.
Proof.
  intros Hexact.
  assert (forall (l : list Q) (acc : Q),
             (foldl (fun acc value => round32 (acc + value)) acc l
              == acc + Qsum l)%Q) as Htotal.
  { clear l. induction l as [|x l IH]; intros acc; simpl; [ring|].
    rewrite IH, Hexact. ring. }
  assert (forall n : nat,
             (Mean.running_count n == inject_Z (Z.of_nat n))%Q) as Hcount.
  { induction n as [|n IH]; [reflexivity|].
    unfold Mean.running_count in *. cbn [Nat.iter nat_rect].
    rewrite Hexact, IH, Nat2Z.inj_succ. unfold Z.succ.
    rewrite inject_Z_plus. reflexivity. }
  destruct l as [|x l]; [reflexivity|].
  unfold Mean.running_mean, TF.divide_no_nan, Qmean.
  destruct (Qeq_bool (Mean.running_count (length (x :: l))) 0) eqn:E.
  - apply Qeq_bool_eq in E. rewrite Hcount in E.
    unfold Qeq, inject_Z in E. simpl in E. lia.
  - rewrite Hexact, Hcount. unfold Mean.running_total. rewrite Htotal.
    rewrite Qplus_0_l. reflexivity.
Qed.

End MeanProperties.

(** *** One call *)
Section Step.

Context `{B : Backend}.

Lemma train_step_eq (self : GAN) (samples_lr : list LR) (samples_hr : list HR)
    (g : Rng) :
  train_step self (samples_lr, samples_hr) g
  = (train_step_with self samples_lr samples_hr (length samples_hr)
       (sample_noise self (length samples_hr) g).1,
     (sample_noise self (length samples_hr) g).2).
Proof.
  unfold train_step. destruct (sample_noise self (length samples_hr) g).
  reflexivity.
Qed.

Lemma train_step_with_eq (self : GAN) (samples_lr : list LR)
    (samples_hr : list HR) (n : nat) (noise : TF.Tensor) :
  train_step_with self samples_lr samples_hr n noise
  = (logs (increment_step (after_branch self samples_lr samples_hr n noise)),
     increment_step (after_branch self samples_lr samples_hr n noise)).
Proof.
  unfold train_step_with, after_branch, branch_of, TF.cond.
  destruct (TF.floormod (step_number self) 2 =? 0)%Z; reflexivity.
Qed.

(** The state a call leaves. *)
Lemma train_step_state (self : GAN) (data : Batch) (g : Rng) :
  (train_step self data g).1.2
  = increment_step
      (after_branch self data.1 data.2 (length data.2)
         (sample_noise self (length data.2) g).1).
Proof.
  destruct data as [lr hr]. rewrite train_step_eq, train_step_with_eq.
  reflexivity.
Qed.

Lemma train_step_discriminator_branch (self : GAN) (samples_lr : list LR)
    (samples_hr : list HR) (g : Rng) :
  branch_of self = DiscriminatorBranch ->
  (train_step self (samples_lr, samples_hr) g).1.2
  = increment_step
      (train_discriminator self samples_lr samples_hr (length samples_hr)
         (sample_noise self (length samples_hr) g).1).
Proof.
  intros Hb. rewrite train_step_state. unfold after_branch. rewrite Hb.
  reflexivity.
Qed.

Lemma train_step_generator_branch (self : GAN) (samples_lr : list LR)
    (samples_hr : list HR) (g : Rng) :
  branch_of self = GeneratorBranch ->
  (train_step self (samples_lr, samples_hr) g).1.2
  = increment_step
      (train_generator self samples_lr (length samples_hr)
         (sample_noise self (length samples_hr) g).1).
Proof.
  intros Hb. rewrite train_step_state. unfold after_branch. rewrite Hb.
  reflexivity.
Qed.

(** The dictionary a call returns is read off the state it leaves. *)
Lemma train_step_logs (self : GAN) (data : Batch) (g : Rng) :
  (train_step self data g).1.1 = logs (train_step self data g).1.2.
Proof.
  destruct data as [lr hr]. rewrite train_step_eq, train_step_with_eq.
  reflexivity.
Qed.

Lemma train_step_rng (self : GAN) (data : Batch) (g : Rng) :
  (train_step self data g).2 = (sample_noise self (length data.2) g).2.
Proof. destruct data as [lr hr]. rewrite train_step_eq. reflexivity. Qed.

Lemma train_discriminator_frame (self : GAN) lr hr n noise :
  let self' := train_discriminator self lr hr n noise in
  generator_weights self' = generator_weights self
  /\ g_optimizer self' = g_optimizer self
  /\ gen_loss_tracker self' = gen_loss_tracker self
  /\ noise_shape self' = noise_shape self
  /\ step_number self' = step_number self.
Proof.
  unfold train_discriminator.
  destruct (apply_gradients_d _ _ _); simpl. repeat split.
Qed.

Lemma train_generator_frame (self : GAN) lr n noise :
  let self' := train_generator self lr n noise in
  discriminator_weights self' = discriminator_weights self
  /\ d_optimizer self' = d_optimizer self
  /\ disc_loss_tracker self' = disc_loss_tracker self
  /\ noise_shape self' = noise_shape self
  /\ step_number self' = step_number self.
Proof.
  unfold train_generator.
  destruct (apply_gradients_g _ _ _); simpl. repeat split.
Qed.

Lemma train_discriminator_update (self : GAN) lr hr n noise :
  let self' := train_discriminator self lr hr n noise in
  (d_optimizer self', discriminator_weights self')
  = apply_gradients_d (d_optimizer self)
      (gradient_d (d_loss_of self lr hr n noise) (discriminator_weights self))
      (discriminator_weights self)
  /\ disc_loss_tracker self'
     = Mean.update_state (disc_loss_tracker self) (d_loss self lr hr n noise).
Proof.
  unfold train_discriminator.
  destruct (apply_gradients_d _ _ _); simpl. split; reflexivity.
Qed.

Lemma train_generator_update (self : GAN) lr n noise :
  let self' := train_generator self lr n noise in
  (g_optimizer self', generator_weights self')
  = apply_gradients_g (g_optimizer self)
      (gradient_g (g_loss_of self lr n noise) (generator_weights self))
      (generator_weights self)
  /\ gen_loss_tracker self'
     = Mean.update_state (gen_loss_tracker self) (g_loss self lr n noise).
Proof.
  unfold train_generator.
  destruct (apply_gradients_g _ _ _); simpl. split; reflexivity.
Qed.


Lemma after_branch_noise_shape (self : GAN) lr hr n noise :
  noise_shape (after_branch self lr hr n noise) = noise_shape self.
Proof.
  unfold after_branch. destruct (branch_of self).
  - apply train_discriminator_frame.
  - apply train_generator_frame.
Qed.


Lemma train_step_noise_shape (self : GAN) (data : Batch) (g : Rng) :
  noise_shape (train_step self data g).1.2 = noise_shape self.
Proof. rewrite train_step_state. simpl. apply after_branch_noise_shape. Qed.


(** *** Sequences of calls *)

Lemma run_cons (self : GAN) (g : Rng) (data : Batch) (rest : list Batch) :
  run self g (data :: rest)
  = (mkEvent (branch_of self) (step_loss self data g)
       (train_step self data g).1.1
     :: (run (train_step self data g).1.2 (train_step self data g).2 rest).1,
     (run (train_step self data g).1.2 (train_step self data g).2 rest).2).
Proof.
  simpl. destruct (train_step self data g) as [[out self'] g']. simpl.
  destruct (run self' g' rest). reflexivity.
Qed.


End Step.

(** *** The alternation *)








Section Alternation.

Context `{B : Backend}.


End Alternation.

(** *** What one call changes *)
Section Frame.

Context `{B : Backend}.

(** C2. A call of [train_step] changes the weights of one network only.
    After a call that runs the discriminator closure the generator's
    weights (and its optimizer) are what they were and the discriminator's
    are those its optimizer returns; after a call that runs the generator
    closure the discriminator's weights (and its optimizer) are what they
    were, although the discriminator is evaluated there, and the
    generator's are those its optimizer returns. *)
Theorem C2_one_network_updated (self : GAN) (data : Batch) (g : Rng) :
  let n := length data.2 in
  let noise := (sample_noise self n g).1 in
  let self' := (train_step self data g).1.2 in
  match branch_of self with
  | DiscriminatorBranch =>
      generator_weights self' = generator_weights self
      /\ g_optimizer self' = g_optimizer self
      /\ (d_optimizer self', discriminator_weights self')
         = apply_gradients_d (d_optimizer self)
             (gradient_d (d_loss_of self data.1 data.2 n noise)
                (discriminator_weights self))
             (discriminator_weights self)
  | GeneratorBranch =>
      discriminator_weights self' = discriminator_weights self
      /\ d_optimizer self' = d_optimizer self
      /\ (g_optimizer self', generator_weights self')
         = apply_gradients_g (g_optimizer self)
             (gradient_g (g_loss_of self data.1 n noise)
                (generator_weights self))
             (generator_weights self)
  end.
Proof.
  intros n noise self'. subst self'. rewrite train_step_state.
  fold n. fold noise. unfold after_branch.
  destruct (branch_of self); cbn [increment_step generator_weights g_optimizer
    d_optimizer discriminator_weights].
  - destruct (train_discriminator_frame self data.1 data.2 n noise)
      as (Hw & Ho & _).
    destruct (train_discriminator_update self data.1 data.2 n noise)
      as (Hu & _).
    auto.
  - destruct (train_generator_frame self data.1 n noise) as (Hw & Ho & _).
    destruct (train_generator_update self data.1 n noise) as (Hu & _).
    auto.
Qed.

(** C5. A call of [train_step] feeds the loss it computed to one tracker
    only: the discriminator's on a call that runs the discriminator
    closure, the generator's on a call that runs the generator closure.
    The other tracker is left as it was and reports what it reported
    before the call. *)
Theorem C5_one_tracker_updated (self : GAN) (data : Batch) (g : Rng) :
  let self' := (train_step self data g).1.2 in
  match branch_of self with
  | DiscriminatorBranch =>
      disc_loss_tracker self'
      = Mean.update_state (disc_loss_tracker self) (step_loss self data g)
      /\ gen_loss_tracker self' = gen_loss_tracker self
      /\ Mean.result (gen_loss_tracker self')
         = Mean.result (gen_loss_tracker self)
  | GeneratorBranch =>
      gen_loss_tracker self'
      = Mean.update_state (gen_loss_tracker self) (step_loss self data g)
      /\ disc_loss_tracker self' = disc_loss_tracker self
      /\ Mean.result (disc_loss_tracker self')
         = Mean.result (disc_loss_tracker self)
  end.
Proof.
  intros self'. subst self'. rewrite train_step_state.
  destruct data as [lr hr]. unfold step_loss, after_branch.
  cbn [fst snd].
  destruct (branch_of self); cbn [increment_step gen_loss_tracker
    disc_loss_tracker].
  - destruct (train_discriminator_frame self lr hr (length hr)
                (sample_noise self (length hr) g).1) as (_ & _ & Ht & _).
    destruct (train_discriminator_update self lr hr (length hr)
                (sample_noise self (length hr) g).1) as (_ & Hu).
    rewrite Ht. auto.
  - destruct (train_generator_frame self lr (length hr)
                (sample_noise self (length hr) g).1) as (_ & _ & Ht & _).
    destruct (train_generator_update self lr (length hr)
                (sample_noise self (length hr) g).1) as (_ & Hu).
    rewrite Ht. auto.
Qed.

End Frame.

(** *** What the two closures compute *)
Section Closures.

Context `{B : Backend}.

Lemma labels_length (n : nat) : length (labels n) = (2 * n)%nat.
Proof.
  unfold labels, TF.concat, TF.ones, TF.zeros.
  rewrite length_app, !length_replicate. lia.
Qed.

Lemma labels_fake_half (n i : nat) : (i < n)%nat -> labels n !! i = Some 1%Q.
Proof.
  intros Hi. unfold labels, TF.concat, TF.ones, TF.zeros.
  rewrite lookup_app_l by (rewrite length_replicate; exact Hi).
  apply lookup_replicate_2, Hi.
Qed.

Lemma labels_real_half (n i : nat) :
  (i < n)%nat -> labels n !! (n + i)%nat = Some 0%Q.
Proof.
  intros Hi. unfold labels, TF.concat, TF.ones, TF.zeros.
  rewrite lookup_app_r by (rewrite length_replicate; lia).
  rewrite length_replicate. replace (n + i - n)%nat with i by lia.
  apply lookup_replicate_2, Hi.
Qed.

(** C3. In a call that runs the discriminator closure on a batch of size
    [n] (the generator returning one sample per low-resolution sample),
    the high-resolution batch given to the discriminator is the [n]
    generated samples followed by the [n] real samples, [2 n] in all; the
    low-resolution batch given with it is the input low-resolution batch
    twice; the labels are [1] on the generated half and [0] on the real
    half.  The loss of the call, the one fed to the discriminator's
    tracker, is the loss function on these labels and on the
    discriminator's scores for these two batches. *)
Theorem C3_discriminator_batch (self : GAN) (samples_lr : list LR)
    (samples_hr : list HR) (g : Rng) :
  let n := length samples_hr in
  let noise := (sample_noise self n g).1 in
  let fake := generator (generator_weights self) samples_lr noise in
  let c_hr := combined_samples_hr self samples_lr samples_hr noise in
  let c_lr := combined_samples_lr samples_lr in
  branch_of self = DiscriminatorBranch ->
  length samples_lr = n ->
  length fake = n ->
  c_hr = fake ++ samples_hr
  /\ length c_hr = (2 * n)%nat
  /\ c_lr = samples_lr ++ samples_lr
  /\ length c_lr = (2 * n)%nat
  /\ labels n = replicate n 1%Q ++ replicate n 0%Q
  /\ length (labels n) = (2 * n)%nat
  /\ (forall i, (i < n)%nat ->
        c_hr !! i = fake !! i
        /\ c_lr !! i = samples_lr !! i
        /\ labels n !! i = Some 1%Q)
  /\ (forall i, (i < n)%nat ->
        c_hr !! (n + i)%nat = samples_hr !! i
        /\ c_lr !! (n + i)%nat = samples_lr !! i
        /\ labels n !! (n + i)%nat = Some 0%Q)
  /\ step_loss self (samples_lr, samples_hr) g
     = loss_fn (replicate n 1%Q ++ replicate n 0%Q)
         (discriminator (discriminator_weights self)
            (samples_lr ++ samples_lr) (fake ++ samples_hr))
  /\ disc_loss_tracker (train_step self (samples_lr, samples_hr) g).1.2
     = Mean.update_state (disc_loss_tracker self)
         (loss_fn (replicate n 1%Q ++ replicate n 0%Q)
            (discriminator (discriminator_weights self)
               (samples_lr ++ samples_lr) (fake ++ samples_hr))).
Proof.
  intros n noise fake c_hr c_lr Hbranch Hlr Hfake.
  assert (step_loss self (samples_lr, samples_hr) g
          = loss_fn (replicate n 1%Q ++ replicate n 0%Q)
              (discriminator (discriminator_weights self)
                 (samples_lr ++ samples_lr) (fake ++ samples_hr))) as Hloss.
  { unfold step_loss. rewrite Hbranch. reflexivity. }
  repeat apply conj.
  - reflexivity.
  - subst c_hr. unfold combined_samples_hr, TF.concat. fold noise. fold fake.
    rewrite length_app, Hfake. fold n. lia.
  - reflexivity.
  - subst c_lr. unfold combined_samples_lr, TF.concat.
    rewrite length_app, Hlr. lia.
  - reflexivity.
  - apply labels_length.
  - intros i Hi. repeat apply conj.
    + subst c_hr. unfold combined_samples_hr, TF.concat. fold noise. fold fake.
      apply lookup_app_l. lia.
    + subst c_lr. unfold combined_samples_lr, TF.concat.
      apply lookup_app_l. lia.
    + apply labels_fake_half, Hi.
  - intros i Hi. repeat apply conj.
    + subst c_hr. unfold combined_samples_hr, TF.concat. fold noise. fold fake.
      rewrite lookup_app_r by lia. f_equal. lia.
    + subst c_lr. unfold combined_samples_lr, TF.concat.
      rewrite lookup_app_r by lia. f_equal. lia.
    + apply labels_real_half, Hi.
  - exact Hloss.
  - rewrite train_step_discriminator_branch by exact Hbranch.
    cbn [increment_step disc_loss_tracker].
    destruct (train_discriminator_update self samples_lr samples_hr n noise)
      as (_ & Hu).
    exact Hu.
Qed.

(** C4. In a call that runs the generator closure on a batch of size [n],
    the misleading labels are [n] zeros; the loss of the call, the one fed
    to the generator's tracker, is the loss function on these labels and
    on the discriminator's scores for the low-resolution batch paired with
    the samples the generator makes of it and of the noise of the call;
    the gradient is that of this loss as a function of the generator's
    weights, it is applied to the generator's weights, and the
    discriminator's weights stay as they were. *)
Theorem C4_generator_loss (self : GAN) (samples_lr : list LR)
    (samples_hr : list HR) (g : Rng) :
  let n := length samples_hr in
  let noise := (sample_noise self n g).1 in
  let self' := (train_step self (samples_lr, samples_hr) g).1.2 in
  let loss_at (w : WG) :=
    loss_fn (replicate n 0%Q)
      (discriminator (discriminator_weights self) samples_lr
         (generator w samples_lr noise)) in
  branch_of self = GeneratorBranch ->
  misleading_labels n = replicate n 0%Q
  /\ length (misleading_labels n) = n
  /\ step_loss self (samples_lr, samples_hr) g
     = loss_at (generator_weights self)
  /\ gen_loss_tracker self'
     = Mean.update_state (gen_loss_tracker self)
         (loss_at (generator_weights self))
  /\ (g_optimizer self', generator_weights self')
     = apply_gradients_g (g_optimizer self)
         (gradient_g loss_at (generator_weights self))
         (generator_weights self)
  /\ discriminator_weights self' = discriminator_weights self
  /\ d_optimizer self' = d_optimizer self.
Proof.
  intros n noise self' loss_at Hbranch. subst self'.
  rewrite train_step_generator_branch by exact Hbranch.
  fold n. fold noise.
  cbn [increment_step gen_loss_tracker g_optimizer generator_weights
       discriminator_weights d_optimizer].
  destruct (train_generator_frame self samples_lr n noise)
    as (Hw & Ho & _).
  destruct (train_generator_update self samples_lr n noise) as (Hu & Ht).
  repeat apply conj.
  - reflexivity.
  - apply length_replicate.
  - unfold step_loss. rewrite Hbranch. reflexivity.
  - exact Ht.
  - exact Hu.
  - exact Hw.
  - exact Ho.
Qed.

End Closures.

(** *** The trackers over a run *)
Section Trackers.

Context `{B : Backend}.

Lemma losses_of_cons (b : Branch) (e : Event) (evs : list Event) :
  losses_of b (e :: evs)
  = if decide (ev_branch e = b) then ev_loss e :: losses_of b evs
    else losses_of b evs.
Proof.
  unfold losses_of. rewrite filter_cons.
  destruct (decide (ev_branch e = b)); reflexivity.
Qed.

Lemma train_step_disc_tracker (self : GAN) (data : Batch) (g : Rng) :
  disc_loss_tracker (train_step self data g).1.2
  = if decide (branch_of self = DiscriminatorBranch)
    then Mean.update_state (disc_loss_tracker self) (step_loss self data g)
    else disc_loss_tracker self.
Proof.
  rewrite train_step_state. destruct data as [lr hr].
  unfold step_loss, after_branch. cbn [fst snd increment_step disc_loss_tracker].
  destruct (branch_of self); simpl.
  - apply train_discriminator_update.
  - apply train_generator_frame.
Qed.

Lemma train_step_gen_tracker (self : GAN) (data : Batch) (g : Rng) :
  gen_loss_tracker (train_step self data g).1.2
  = if decide (branch_of self = GeneratorBranch)
    then Mean.update_state (gen_loss_tracker self) (step_loss self data g)
    else gen_loss_tracker self.
Proof.
  rewrite train_step_state. destruct data as [lr hr].
  unfold step_loss, after_branch. cbn [fst snd increment_step gen_loss_tracker].
  destruct (branch_of self); simpl.
  - apply train_discriminator_frame.
  - apply train_generator_update.
Qed.

(** [train_step] never resets a tracker: over a run each tracker is fed,
    in order, the losses of the calls that ran its closure. *)
Lemma run_trackers (calls : list Batch) (self : GAN) (g : Rng) :
  disc_loss_tracker (run self g calls).2.1
  = foldl Mean.update_state (disc_loss_tracker self)
      (losses_of DiscriminatorBranch (run self g calls).1)
  /\ gen_loss_tracker (run self g calls).2.1
     = foldl Mean.update_state (gen_loss_tracker self)
         (losses_of GeneratorBranch (run self g calls).1).
Proof.
  revert self g. induction calls as [|data rest IH]; intros self g.
  - split; reflexivity.
  - rewrite run_cons. cbn [fst snd]. rewrite !losses_of_cons.
    cbn [ev_branch ev_loss].
    destruct (IH (train_step self data g).1.2 (train_step self data g).2)
      as (IHd & IHg).
    rewrite IHd, IHg, train_step_disc_tracker, train_step_gen_tracker.
    split; case_decide; reflexivity.
Qed.

Lemma run_noise_shape (calls : list Batch) (self : GAN) (g : Rng) :
  noise_shape (run self g calls).2.1 = noise_shape self.
Proof.
  revert self g. induction calls as [|data rest IH]; intros self g.
  - reflexivity.
  - rewrite run_cons. cbn [snd]. rewrite IH. apply train_step_noise_shape.
Qed.

Lemma reset_metrics_trackers (self : GAN) :
  gen_loss_tracker (reset_metrics self) = Mean.init
  /\ disc_loss_tracker (reset_metrics self) = Mean.init.
Proof. split; reflexivity. Qed.

(** The last epoch of a training: a reset, then its calls. *)
Lemma fit_snoc (epochs : list (list Batch)) (batches : list Batch)
    (self : GAN) (g : Rng) :
  fit self g (epochs ++ [batches])
  = ((fit self g epochs).1
       ++ [(run (reset_metrics (fit self g epochs).2.1)
              (fit self g epochs).2.2 batches).1],
     (run (reset_metrics (fit self g epochs).2.1)
        (fit self g epochs).2.2 batches).2).
Proof.
  revert self g. induction epochs as [|e epochs IH]; intros self g.
  - cbn [app fit fst snd].
    destruct (run (reset_metrics self) g batches) as [evs [s1 g1]].
    reflexivity.
  - cbn [app fit].
    destruct (run (reset_metrics self) g e) as [evs [s1 g1]].
    rewrite IH. destruct (fit s1 g1 epochs) as [evss [s2 g2]].
    reflexivity.
Qed.

(** C6 (amended). Each tracker keeps a float32 total and a float32 count
    of the losses it was fed since its construction or its last reset and
    reports their float32 quotient, the float32 running mean of these
    losses: their arithmetic mean up to the rounding of the additions and
    of the division.  [train_step] never resets a tracker: after any
    sequence of [train_step] calls on a freshly constructed trainer, each
    tracker reports the running mean of all the losses of the calls that
    ran its closure.  The driver [fit] resets the two trackers, which
    [metrics] lists, at the start of every epoch: after a training, each
    tracker reports the running mean of the losses of the last epoch
    only. *)
Theorem C6_mean_since_last_reset :
  (forall (discriminator0 : WD) (generator0 : WG) (d_opt : OptD)
          (g_opt : OptG) (g : Rng) (calls : list Batch),
      let r := run (fresh discriminator0 generator0 d_opt g_opt) g calls in
      Mean.result (disc_loss_tracker r.2.1)
      = Mean.running_mean (losses_of DiscriminatorBranch r.1)
      /\ Mean.result (gen_loss_tracker r.2.1)
         = Mean.running_mean (losses_of GeneratorBranch r.1))
  /\ (forall (self : GAN) (g : Rng) (epochs : list (list Batch))
             (batches : list Batch),
        let before := fit self g epochs in
        let r := run (reset_metrics before.2.1) before.2.2 batches in
        fit self g (epochs ++ [batches]) = (before.1 ++ [r.1], r.2)
        /\ Mean.result (disc_loss_tracker r.2.1)
           = Mean.running_mean (losses_of DiscriminatorBranch r.1)
        /\ Mean.result (gen_loss_tracker r.2.1)
           = Mean.running_mean (losses_of GeneratorBranch r.1)).
Proof.
  split.
  - intros d0 g0 d_opt g_opt g calls r.
    destruct (run_trackers calls (fresh d0 g0 d_opt g_opt) g) as (Hd & Hg).
    fold r in Hd, Hg. rewrite Hd, Hg.
    split; apply Mean_result_running_mean.
  - intros self g epochs batches before r.
    split; [apply fit_snoc|].
    destruct (run_trackers batches (reset_metrics before.2.1) before.2.2)
      as (Hd & Hg).
    fold r in Hd, Hg. rewrite Hd, Hg.
    split; apply Mean_result_running_mean.
Qed.

End Trackers.

(** *** What a call returns, and its noise *)
Section Results.

Context `{B : Backend}.

Lemma logs_g_loss (self : GAN) :
  logs self !! "g_loss" = Some (Mean.result (gen_loss_tracker self)).
Proof. unfold logs. apply lookup_insert_eq. Qed.

Lemma logs_d_loss (self : GAN) :
  logs self !! "d_loss" = Some (Mean.result (disc_loss_tracker self)).
Proof.
  unfold logs. rewrite lookup_insert_ne by discriminate.
  apply lookup_singleton_eq.
Qed.

Lemma logs_dom (self : GAN) :
  dom (logs self) = ({[ "g_loss"; "d_loss" ]} : gset string).
Proof. unfold logs. rewrite dom_insert_L, dom_singleton_L. reflexivity. Qed.

(** C7 (amended). Every call of [train_step], on every batch and from the
    first call on, returns a dictionary with exactly the two keys
    [g_loss] and [d_loss], whose values are the means the generator's and
    the discriminator's trackers report once the call has updated
    them. *)
Theorem C7_returned_logs (self : GAN) (data : Batch) (g : Rng) :
  let out := (train_step self data g).1.1 in
  let self' := (train_step self data g).1.2 in
  out !! "g_loss" = Some (Mean.result (gen_loss_tracker self'))
  /\ out !! "d_loss" = Some (Mean.result (disc_loss_tracker self'))
  /\ dom out = ({[ "g_loss"; "d_loss" ]} : gset string).
Proof.
  intros out self'. subst out self'. rewrite train_step_logs.
  split; [apply logs_g_loss|]. split; [apply logs_d_loss|apply logs_dom].
Qed.

Lemma draws_length (mean stddev : Q) (n : nat) (g : Rng) :
  length (TF.draws normal_draw mean stddev n g).1 = n.
Proof.
  revert g. induction n as [|n IH]; intros g; [reflexivity|].
  cbn [TF.draws]. destruct (normal_draw mean stddev g) as [x g1].
  specialize (IH g1). destruct (TF.draws normal_draw mean stddev n g1).
  simpl in *. rewrite IH. reflexivity.
Qed.

Lemma random_normal_eq (s : list nat) (mean stddev : Q) (g : Rng) :
  TF.random_normal normal_draw s mean stddev g
  = (TF.mkTensor s (TF.draws normal_draw mean stddev (TF.num_elements s) g).1,
     (TF.draws normal_draw mean stddev (TF.num_elements s) g).2).
Proof.
  unfold TF.random_normal.
  destruct (TF.draws normal_draw mean stddev (TF.num_elements s) g).
  reflexivity.
Qed.

(** C8. On a trainer built as the notebook builds it, every call of
    [train_step] on a batch of size [n] draws its noise anew from the
    random generator, with mean [0] and standard deviation [1]: a tensor
    of shape [(n, 4, 4, 8)], that is [128 n] successive variates.  The
    draw precedes the choice of the closure, and the closure that runs,
    whichever it is, is given this tensor.  The noise is a function of the
    batch size and of the state of the random generator only, nothing of
    it is kept in the trainer, and the call hands on the state of the
    random generator after the draw: the next call draws its own noise
    from there. *)
Theorem C8_noise_every_call (discriminator0 : WD) (generator0 : WG)
    (d_opt : OptD) (g_opt : OptG) (g0 : Rng) (calls : list Batch)
    (data : Batch) (g : Rng) :
  let self := (run (fresh discriminator0 generator0 d_opt g_opt) g0 calls).2.1 in
  let n := length data.2 in
  let drawn := TF.random_normal normal_draw [n; 4; 4; 8]%nat 0 1 g in
  let noise := drawn.1 in
  TF.shape noise = [n; 4; 4; 8]%nat
  /\ TF.values noise = (TF.draws normal_draw 0 1 (n * 4 * 4 * 8) g).1
  /\ length (TF.values noise) = (n * 4 * 4 * 8)%nat
  /\ train_step self data g
     = (train_step_with self data.1 data.2 n noise, drawn.2)
  /\ (train_step self data g).1.2
     = increment_step
         match branch_of self with
         | DiscriminatorBranch =>
             train_discriminator self data.1 data.2 n noise
         | GeneratorBranch => train_generator self data.1 n noise
         end
  /\ (forall next : Batch,
        let self' := (train_step self data g).1.2 in
        let m := length next.2 in
        train_step self' next drawn.2
        = (train_step_with self' next.1 next.2 m
             (TF.random_normal normal_draw [m; 4; 4; 8]%nat 0 1 drawn.2).1,
           (TF.random_normal normal_draw [m; 4; 4; 8]%nat 0 1 drawn.2).2)).
Proof.
  destruct data as [lr hr]. cbn [fst snd].
  set (self := (run (fresh discriminator0 generator0 d_opt g_opt) g0 calls).2.1).
  assert (sample_noise self (length hr) g
          = TF.random_normal normal_draw [length hr; 4; 4; 8]%nat 0 1 g)
    as Hnoise.
  { unfold sample_noise. subst self. rewrite run_noise_shape. reflexivity. }
  assert (TF.num_elements [length hr; 4; 4; 8]%nat
          = (length hr * 4 * 4 * 8)%nat) as Hnum.
  { unfold TF.num_elements. simpl. lia. }
  rewrite <- Hnoise.
  repeat apply conj.
  - rewrite Hnoise, random_normal_eq. reflexivity.
  - rewrite Hnoise, random_normal_eq, Hnum. reflexivity.
  - rewrite Hnoise, random_normal_eq, Hnum. apply draws_length.
  - apply train_step_eq.
  - apply (train_step_state self (lr, hr) g).
  - intros [lr2 hr2]. cbn [fst snd]. rewrite train_step_eq.
    assert (forall m g',
               sample_noise (train_step self (lr, hr) g).1.2 m g'
               = TF.random_normal normal_draw [m; 4; 4; 8]%nat 0 1 g')
      as Hnext.
    { intros m g'. unfold sample_noise. rewrite train_step_noise_shape.
      subst self. rewrite run_noise_shape. reflexivity. }
    rewrite !Hnext. reflexivity.
Qed.

(** C9. Two trainers with the same weights in both networks, the same
    step counter and the same noise shape, called on the same batch with
    the random generator in the same state, run the same closure and
    compute the same loss, and leave the random generator in the same
    state, whatever their trackers and optimizers hold. *)
Theorem C9_deterministic_loss (self1 self2 : GAN) (data : Batch) (g : Rng) :
  discriminator_weights self1 = discriminator_weights self2 ->
  generator_weights self1 = generator_weights self2 ->
  step_number self1 = step_number self2 ->
  noise_shape self1 = noise_shape self2 ->
  branch_of self1 = branch_of self2
  /\ step_loss self1 data g = step_loss self2 data g
  /\ (train_step self1 data g).2 = (train_step self2 data g).2.
Proof.
  intros Hd Hg Hs Hn.
  assert (branch_of self1 = branch_of self2) as Hb.
  { unfold branch_of. rewrite Hs. reflexivity. }
  assert (forall n, sample_noise self1 n g = sample_noise self2 n g) as Hnoise.
  { intros n. unfold sample_noise. rewrite Hn. reflexivity. }
  split; [exact Hb|]. split.
  - destruct data as [lr hr]. unfold step_loss. rewrite Hb, Hnoise.
    destruct (branch_of self2).
    + unfold d_loss, d_loss_of, combined_samples_hr. rewrite Hd, Hg.
      reflexivity.
    + unfold g_loss, g_loss_of. rewrite Hd, Hg. reflexivity.
  - rewrite !train_step_rng, Hnoise. reflexivity.
Qed.

(** C10. A tracker that was fed nothing reports exactly [0].  The first
    call of [train_step] on a freshly constructed trainer runs the
    discriminator closure and leaves the generator's tracker as
    constructed, so the generator loss it returns is [0]. *)
Theorem C10_zero_before_first_update (discriminator0 : WD) (generator0 : WG)
    (d_opt : OptD) (g_opt : OptG) (data : Batch) (g : Rng) :
  let self := fresh discriminator0 generator0 d_opt g_opt in
  let out := (train_step self data g).1.1 in
  let self' := (train_step self data g).1.2 in
  Mean.result Mean.init = 0%Q
  /\ Mean.result (gen_loss_tracker self) = 0%Q
  /\ Mean.result (disc_loss_tracker self) = 0%Q
  /\ branch_of self = DiscriminatorBranch
  /\ gen_loss_tracker self' = Mean.init
  /\ out !! "g_loss" = Some 0%Q.
Proof.
  intros self out self'.
  assert (gen_loss_tracker self' = Mean.init) as Hg.
  { subst self'. destruct data as [lr hr].
    rewrite train_step_discriminator_branch by reflexivity.
    cbn [increment_step gen_loss_tracker].
    destruct (train_discriminator_frame self lr hr (length hr)
                (sample_noise self (length hr) g).1) as (_ & _ & Ht & _).
    rewrite Ht. reflexivity. }
  repeat apply conj; try reflexivity.
  - exact Hg.
  - subst out. rewrite train_step_logs, logs_g_loss. fold self'.
    rewrite Hg. reflexivity.
Qed.

End Results.

(** ** Concrete runs on the small backend *)
Section Concrete.

Import Stub.

Example step_counter_wraps :
  TF.add32 2147483647 1 = (-2147483648)%Z
  /\ TF.floormod (-2147483648) 2 = 0%Z.
Proof. split; reflexivity. Qed.

Example first_call_loss : step_loss gan0 batch1 seed = 13%Q.
Proof. vm_compute. reflexivity. Qed.

Example three_calls :
  ev_branch <$> (run gan0 seed [batch1; batch2; batch1]).1
  = [DiscriminatorBranch; GeneratorBranch; DiscriminatorBranch].
Proof. vm_compute. reflexivity. Qed.


Lemma C3_discriminator_batch_witness :
  branch_of gan0 = DiscriminatorBranch
  /\ labels 2 = [1%Q; 1%Q; 0%Q; 0%Q]
  /\ step_loss gan0 batch1 seed
     = loss_fn [1%Q; 1%Q; 0%Q; 0%Q]
         (discriminator (discriminator_weights gan0)
            [1%Q; 2%Q; 1%Q; 2%Q] [2%Q; 3%Q; 3%Q; 5%Q]).
Proof.
  destruct (C3_discriminator_batch (B := backend) gan0 [1%Q; 2%Q] [3%Q; 5%Q] seed)
    as (_ & _ & _ & _ & Hl & _ & _ & _ & Hloss & _);
    [reflexivity | reflexivity | reflexivity |].
  split; [reflexivity|]. split; [exact Hl|]. exact Hloss.
Defined.

Lemma C4_generator_loss_witness :
  branch_of gan1 = GeneratorBranch
  /\ misleading_labels 2 = [0%Q; 0%Q]
  /\ discriminator_weights (train_step gan1 batch2 seed1).1.2
     = discriminator_weights gan1.
Proof.
  destruct (C4_generator_loss (B := backend) gan1 [2%Q; 0%Q] [1%Q; 4%Q] seed1)
    as (Hm & _ & _ & _ & _ & Hd & _); [reflexivity|].
  split; [reflexivity|]. split; [exact Hm|exact Hd].
Defined.

Lemma C9_deterministic_loss_witness :
  gen_loss_tracker gan0 <> gen_loss_tracker gan0'
  /\ step_loss gan0 batch1 seed = step_loss gan0' batch1 seed.
Proof.
  split; [discriminate|].
  destruct (C9_deterministic_loss (B := backend) gan0 gan0' batch1 seed)
    as (_ & Hloss & _); [reflexivity | reflexivity | reflexivity
                        | reflexivity |].
  exact Hloss.
Defined.

(** Two epochs of one batch each: the first epoch feeds the loss [13] to
    the discriminator's tracker; the second epoch starts with a reset and
    its only call runs the generator closure.  The discriminator's tracker
    then reports [0], while the mean of the discriminator losses recorded
    since construction is [13]. *)
Lemma C6_counterexample :
  Mean.result (disc_loss_tracker two_epochs.2.1) = 0%Q
  /\ Qmean (losses_of DiscriminatorBranch (concat two_epochs.1)) = 13%Q
  /\ ~ (Mean.result (disc_loss_tracker two_epochs.2.1)
        == Qmean (losses_of DiscriminatorBranch (concat two_epochs.1)))%Q.
Proof.
  split; [vm_compute; reflexivity|]. split; [vm_compute; reflexivity|].
  vm_compute. discriminate.
Qed.

(** The dictionary the first call returns has no entry under the names of
    the trackers. *)
Lemma C7_counterexample :
  (train_step gan0 batch1 seed).1.1 !! "generator_loss" = None
  /\ (train_step gan0 batch1 seed).1.1 !! "discriminator_loss" = None.
Proof. split; vm_compute; reflexivity. Qed.

End Concrete.

(** ** The trainer under its driver *)




Section DriverProperties.

Context `{B : Backend}.

Lemma same_training_refl (s : GAN) : same_training s s.
Proof. repeat split. Qed.

Lemma same_training_trans (s1 s2 s3 : GAN) :
  same_training s1 s2 -> same_training s2 s3 -> same_training s1 s3.
Proof.
  intros (H1 & H2 & H3 & H4 & H5 & H6) (K1 & K2 & K3 & K4 & K5 & K6).
  repeat split; congruence.
Qed.

Lemma reset_metrics_same_training (s : GAN) : same_training (reset_metrics s) s.
Proof. repeat split. Qed.

(** What a call does to the weights, the optimizers, the counter and the
    random generator, the closure it runs and the loss it computes do not
    depend on the trackers. *)
Lemma train_step_same_training (s1 s2 : GAN) (data : Batch) (g : Rng) :
  same_training s1 s2 ->
  same_training (train_step s1 data g).1.2 (train_step s2 data g).1.2
  /\ (train_step s1 data g).2 = (train_step s2 data g).2
  /\ branch_of s1 = branch_of s2
  /\ step_loss s1 data g = step_loss s2 data g.
Proof.
  destruct s1 as [dw1 gw1 ns1 gt1 dt1 sn1 do1 go1].
  destruct s2 as [dw2 gw2 ns2 gt2 dt2 sn2 do2 go2].
  intros (H1 & H2 & H3 & H4 & H5 & H6). simpl in *. subst.
  destruct data as [lr hr].
  rewrite !train_step_state, !train_step_rng.
  unfold step_loss, after_branch, branch_of, sample_noise.
  cbn [fst snd step_number noise_shape].
  destruct (TF.floormod sn2 2 =? 0)%Z.
  - unfold train_discriminator, d_loss, d_loss_of, combined_samples_hr.
    cbn [discriminator_weights generator_weights d_optimizer g_optimizer
         noise_shape step_number gen_loss_tracker disc_loss_tracker].
    destruct (apply_gradients_d _ _ _). repeat split.
  - unfold train_generator, g_loss, g_loss_of.
    cbn [discriminator_weights generator_weights d_optimizer g_optimizer
         noise_shape step_number gen_loss_tracker disc_loss_tracker].
    destruct (apply_gradients_g _ _ _). repeat split.
Qed.

Lemma run_app (calls1 calls2 : list Batch) (self : GAN) (g : Rng) :
  run self g (calls1 ++ calls2)
  = ((run self g calls1).1
       ++ (run (run self g calls1).2.1 (run self g calls1).2.2 calls2).1,
     (run (run self g calls1).2.1 (run self g calls1).2.2 calls2).2).
Proof.
  revert self g. induction calls1 as [|data rest IH]; intros self g.
  - cbn [app run fst snd]. destruct (run self g calls2). reflexivity.
  - rewrite <- app_comm_cons, !run_cons, IH. reflexivity.
Qed.

Lemma run_length (calls : list Batch) (self : GAN) (g : Rng) :
  length (run self g calls).1 = length calls.
Proof.
  revert self g. induction calls as [|data rest IH]; intros self g.
  - reflexivity.
  - rewrite run_cons. cbn [fst length]. rewrite IH. reflexivity.
Qed.

Lemma run_same_training (calls : list Batch) (s1 s2 : GAN) (g : Rng) :
  same_training s1 s2 ->
  same_training (run s1 g calls).2.1 (run s2 g calls).2.1
  /\ (run s1 g calls).2.2 = (run s2 g calls).2.2
  /\ ev_branch <$> (run s1 g calls).1 = ev_branch <$> (run s2 g calls).1
  /\ ev_loss <$> (run s1 g calls).1 = ev_loss <$> (run s2 g calls).1.
Proof.
  revert s1 s2 g. induction calls as [|data rest IH]; intros s1 s2 g Hs.
  - repeat split; try reflexivity; apply Hs.
  - rewrite !run_cons. cbn [fst snd].
    destruct (train_step_same_training s1 s2 data g Hs)
      as (Hs' & Hg & Hb & Hl).
    rewrite Hg.
    destruct (IH _ _ (train_step s2 data g).2 Hs') as (K1 & K2 & K3 & K4).
    rewrite !fmap_cons. cbn [ev_branch ev_loss].
    rewrite K3, K4, Hb, Hl.
    split; [exact K1|]. split; [exact K2|]. split; reflexivity.
Qed.


Lemma fit_simulates_run (epochs : list (list Batch)) (g : Rng) (s1 s2 : GAN) :
  same_training s1 s2 ->
  same_training (fit s1 g epochs).2.1 (run s2 g (concat epochs)).2.1
  /\ (fit s1 g epochs).2.2 = (run s2 g (concat epochs)).2.2
  /\ ev_branch <$> concat (fit s1 g epochs).1
     = ev_branch <$> (run s2 g (concat epochs)).1
  /\ ev_loss <$> concat (fit s1 g epochs).1
     = ev_loss <$> (run s2 g (concat epochs)).1.
Proof.
  revert g s1 s2. induction epochs as [|batches rest IH]; intros g s1 s2 Hs.
  - repeat split; try reflexivity; apply Hs.
  - cbn [concat]. rewrite run_app. cbn [fit].
    assert (same_training (reset_metrics s1) s2) as Hs1.
    { eapply same_training_trans; [apply reset_metrics_same_training|exact Hs]. }
    destruct (run_same_training batches _ _ g Hs1) as (K1 & K2 & K3 & K4).
    destruct (run (reset_metrics s1) g batches) as [evs [s1' g1]].
    cbn [fst snd] in *.
    destruct (IH g1 s1' (run s2 g batches).2.1 K1) as (L1 & L2 & L3 & L4).
    destruct (fit s1' g1 rest) as [evss [s1'' g2]].
    cbn [fst snd concat] in *. rewrite <- K2.
    rewrite !fmap_app, K3, K4, L3, L4.
    split; [exact L1|]. split; [exact L2|]. split; reflexivity.
Qed.

(** X1. Epoch boundaries touch the trackers only.  A training of several
    epochs moves the weights, the optimizers, the step counter and the
    random generator, and runs the closures and computes the losses, call
    after call, exactly as one uninterrupted sequence of [train_step] on
    the batches of all the epochs in order. *)
Theorem fit_is_one_run (epochs : list (list Batch)) (self : GAN) (g : Rng) :
  let f := fit self g epochs in
  let r := run self g (concat epochs) in
  same_training f.2.1 r.2.1
  /\ f.2.2 = r.2.2
  /\ ev_branch <$> concat f.1 = ev_branch <$> r.1
  /\ ev_loss <$> concat f.1 = ev_loss <$> r.1.
Proof. cbv zeta. apply fit_simulates_run, same_training_refl. Qed.


Lemma run_take (n : nat) (calls : list Batch) (self : GAN) (g : Rng) :
  (run self g (take n calls)).1 = take n (run self g calls).1.
Proof.
  destruct (decide (n <= length calls)%nat) as [Hn|Hn].
  - rewrite <- (take_drop n calls) at 2. rewrite run_app. cbn [fst].
    rewrite take_app_length'; [reflexivity|].
    rewrite run_length, length_take. lia.
  - rewrite !take_ge; [reflexivity| |]; rewrite ?run_length; lia.
Qed.

Lemma run_snoc_logs (calls : list Batch) (data : Batch) (self : GAN) (g : Rng)
    (e : Event) :
  (run self g (calls ++ [data])).1 !! length calls = Some e ->
  ev_logs e = logs (run self g (calls ++ [data])).2.1.
Proof.
  rewrite run_app, run_cons. cbn [fst snd run].
  rewrite lookup_app_r by (rewrite run_length; lia).
  rewrite run_length, Nat.sub_diag. cbn [lookup list_lookup].
  intros [= <-]. cbn [ev_logs]. apply train_step_logs.
Qed.

(** X3. What the calls report.  On a freshly constructed trainer, the two
    losses that call number [k] of a sequence of [train_step] returns are
    the float32 running means of the losses computed, for each network, by
    the calls up to and including call [k]: the float32 total of these
    losses, added in the order of the calls, divided in float32 by their
    float32 count. *)
Theorem returned_losses_are_prefix_means (discriminator0 : WD)
    (generator0 : WG) (d_opt : OptD) (g_opt : OptG) (g : Rng)
    (calls : list Batch) (k : nat) (e : Event) :
  let evs := (run (fresh discriminator0 generator0 d_opt g_opt) g calls).1 in
  evs !! k = Some e ->
  ev_logs e !! "d_loss"
  = Some (Mean.running_mean (losses_of DiscriminatorBranch (take (S k) evs)))
  /\ ev_logs e !! "g_loss"
     = Some (Mean.running_mean (losses_of GeneratorBranch (take (S k) evs))).
Proof.
  intros evs He.
  set (self := fresh discriminator0 generator0 d_opt g_opt) in *.
  assert (k < length calls)%nat as Hk.
  { apply lookup_lt_Some in He. subst evs. rewrite run_length in He. exact He. }
  destruct (lookup_lt_is_Some_2 calls k Hk) as [data Hdata].
  pose proof (take_S_r calls k data Hdata) as Htake.
  assert ((run self g (take (S k) calls)).1 !! k = Some e) as He'.
  { rewrite run_take. fold evs. rewrite lookup_take_lt by lia. exact He. }
  assert (length (take k calls) = k) as Hlen by (rewrite length_take; lia).
  rewrite Htake in He'.
  pose proof (run_snoc_logs (take k calls) data self g e) as Hlogs.
  rewrite Hlen in Hlogs. specialize (Hlogs He'). rewrite <- Htake in Hlogs.
  destruct (run_trackers (take (S k) calls) self g) as (Hd & Hg).
  rewrite run_take in Hd, Hg. fold evs in Hd, Hg.
  rewrite Hlogs, logs_d_loss, logs_g_loss, Hd, Hg.
  rewrite !Mean_result_running_mean. split; reflexivity.
Qed.

End DriverProperties.

(** ** The training dataset *)
Section BatchFrom.

Context {A : Type}.

Lemma batch_from_concat (n : nat) (l cur : list A) :
  concat (Dataset.batch_from n cur l) = cur ++ l.
Proof.
  revert cur. induction l as [|x l IH]; intros cur.
  - destruct cur; simpl; rewrite ?app_nil_r; reflexivity.
  - cbn [Dataset.batch_from].
    destruct (length (cur ++ [x]) =? n)%nat.
    + cbn [concat]. rewrite IH, <- app_assoc. reflexivity.
    + rewrite IH, <- app_assoc. reflexivity.
Qed.

Lemma batch_from_sizes (n : nat) (l cur : list A) :
  (0 < n)%nat -> (length cur < n)%nat ->
  Forall (fun c => (1 <= length c <= n)%nat) (Dataset.batch_from n cur l).
Proof.
  intros Hn. revert cur. induction l as [|x l IH]; intros cur Hcur.
  - destruct cur as [|y cur]; constructor; [|constructor].
    cbn [length] in *. lia.
  - cbn [Dataset.batch_from].
    destruct (Nat.eqb_spec (length (cur ++ [x])) n) as [E|E].
    + constructor; [lia|]. apply IH. simpl. lia.
    + apply IH. rewrite length_app in *. simpl in *. lia.
Qed.

Lemma batch_from_full (n : nat) (l cur : list A) (i : nat) (c : list A) :
  Dataset.batch_from n cur l !! i = Some c ->
  (S i < length (Dataset.batch_from n cur l))%nat ->
  length c = n.
Proof.
  revert cur i. induction l as [|x l IH]; intros cur i Hc Hi.
  - destruct cur; simpl in Hi; lia.
  - cbn [Dataset.batch_from] in *.
    destruct (Nat.eqb_spec (length (cur ++ [x])) n) as [E|E].
    + destruct i as [|i].
      * injection Hc as <-. exact E.
      * cbn [length] in Hi. apply (IH [] i); [exact Hc|lia].
    + apply (IH (cur ++ [x]) i); assumption.
Qed.

Lemma batch_from_count (n : nat) (l cur : list A) :
  (0 < n)%nat -> (length cur < n)%nat ->
  length (Dataset.batch_from n cur l)
  = ((length cur + length l + (n - 1)) / n)%nat.
Proof.
  intros Hn. revert cur. induction l as [|x l IH]; intros cur Hcur.
  - destruct cur as [|y cur]; cbn [Dataset.batch_from length] in *.
    + symmetry. apply Nat.div_small. lia.
    + apply (Nat.div_unique _ n 1 (length cur)); lia.
  - cbn [Dataset.batch_from].
    destruct (Nat.eqb_spec (length (cur ++ [x])) n) as [E|E];
      rewrite length_app in E; cbn [length] in *.
    + rewrite IH by (simpl; lia). cbn [length].
      replace (length cur + S (length l) + (n - 1))%nat
        with ((0 + length l + (n - 1)) + 1 * n)%nat by lia.
      rewrite Nat.div_add by lia. lia.
    + rewrite IH by (rewrite length_app; simpl; lia).
      rewrite length_app. cbn [length]. f_equal. lia.
Qed.

Lemma batch_from_last (n : nat) (l cur : list A) (c : list A) :
  (0 < n)%nat -> (length cur < n)%nat ->
  last (Dataset.batch_from n cur l) = Some c ->
  (length c + n * (length (Dataset.batch_from n cur l) - 1)
   = length cur + length l)%nat.
Proof.
  intros Hn. revert cur. induction l as [|x l IH]; intros cur Hcur Hlast.
  - destruct cur as [|y cur]; [discriminate|].
    cbn [Dataset.batch_from last length] in *. injection Hlast as <-.
    cbn [length]. lia.
  - cbn [Dataset.batch_from] in *.
    destruct (Nat.eqb_spec (length (cur ++ [x])) n) as [E|E];
      rewrite length_app in E; cbn [length] in *.
    + destruct (Dataset.batch_from n [] l) as [|c' rest] eqn:Hrest.
      * injection Hlast as <-. rewrite length_app. cbn [length].
        pose proof (batch_from_concat n l []) as Hc. rewrite Hrest in Hc.
        simpl in Hc. subst l. cbn [length]. lia.
      * rewrite last_cons_cons, <- Hrest in Hlast.
        specialize (IH [] ltac:(simpl; lia) Hlast).
        rewrite Hrest in IH. cbn [length] in *.
        replace (S (S (length rest)) - 1)%nat with (S (length rest)) by lia.
        replace (S (length rest) - 1)%nat with (length rest) in IH by lia.
        rewrite Nat.mul_succ_r. lia.
    + specialize (IH (cur ++ [x]) ltac:(rewrite length_app; simpl; lia) Hlast).
      rewrite length_app in IH. cbn [length] in IH. lia.
Qed.

End BatchFrom.

Section DatasetProperties.

Context {A B : Type}.

Lemma stack_lengths (chunk : list (A * B)) :
  length (Dataset.stack chunk).1 = length chunk
  /\ length (Dataset.stack chunk).2 = length chunk.
Proof. unfold Dataset.stack. cbn [fst snd]. rewrite !length_fmap. auto. Qed.

Lemma zip_stack (chunk : list (A * B)) :
  zip (Dataset.stack chunk).1 (Dataset.stack chunk).2 = chunk.
Proof. unfold Dataset.stack. cbn [fst snd]. apply zip_fst_snd. Qed.

Lemma dataset_Some (shuffle : list (A * B) -> list (A * B))
    (samples_lr : list A) (samples : list B) (bs : list (list A * list B)) :
  dataset shuffle samples_lr samples = Some bs ->
  length samples_lr = length samples
  /\ bs = Dataset.stack
            <$> Dataset.batch_from batch_size [] (shuffle (zip samples_lr samples)).
Proof.
  unfold dataset, Dataset.from_tensor_slices.
  destruct (decide (length samples_lr = length samples)) as [E|E]; [|discriminate].
  cbn [Dataset.batch batch_size]. intros [= <-]. split; [exact E|reflexivity].
Qed.

(** X5. The batches of a pass.  Every batch holds as many low-resolution
    as high-resolution samples, at least one and at most 64; every batch
    but the last holds exactly 64 and the last holds the rest; a pass over
    [N] pairs has [ceil(N/64)] batches. *)
Theorem dataset_batches (shuffle : list (A * B) -> list (A * B))
    (samples_lr : list A) (samples : list B) (bs : list (list A * list B)) :
  (forall l, shuffle l ≡ₚ l) ->
  dataset shuffle samples_lr samples = Some bs ->
  Forall (fun b => length b.1 = length b.2
                   /\ (1 <= length b.1 <= 64)%nat) bs
  /\ (forall i b, bs !! i = Some b -> (S i < length bs)%nat ->
        length b.1 = 64%nat)
  /\ (forall b, last bs = Some b ->
        (length b.1 + 64 * (length bs - 1) = length samples)%nat)
  /\ length bs = ((length samples + 63) / 64)%nat.
Proof.
  intros Hperm Hds. apply dataset_Some in Hds as (Hlen & ->).
  set (els := shuffle (zip samples_lr samples)).
  assert (length els = length samples) as Hels.
  { subst els. rewrite (Permutation_length (Hperm _)), length_zip. lia. }
  split; [|split; [|split]].
  - apply Forall_fmap.
    eapply Forall_impl; [apply (batch_from_sizes batch_size els []);
                         unfold batch_size; simpl; lia|].
    intros c Hc. unfold compose. cbn beta.
    destruct (stack_lengths c) as (H1 & H2). rewrite H1, H2.
    unfold batch_size in Hc. split; [reflexivity|exact Hc].
  - intros i b Hb Hi. rewrite list_lookup_fmap in Hb.
    rewrite length_fmap in Hi.
    destruct (Dataset.batch_from batch_size [] els !! i) as [c|] eqn:Hc;
      [|discriminate].
    injection Hb as <-. destruct (stack_lengths c) as (H1 & _). rewrite H1.
    apply (batch_from_full batch_size els [] i c Hc Hi).
  - intros b Hb. rewrite fmap_last in Hb. rewrite length_fmap.
    destruct (last (Dataset.batch_from batch_size [] els)) as [c|] eqn:Hc;
      [|discriminate].
    injection Hb as <-. destruct (stack_lengths c) as (H1 & _). rewrite H1.
    pose proof (batch_from_last batch_size els [] c) as Hl.
    unfold batch_size in Hl at 1 2 3. cbn [length] in Hl.
    rewrite <- Hels. apply Hl; [lia|lia|exact Hc].
  - rewrite length_fmap, batch_from_count by (unfold batch_size; simpl; lia).
    rewrite Hels. reflexivity.
Qed.

(** X6. A pass delivers every pair once.  Taken apart again, the batches
    of a pass give the pairs (low-resolution sample, high-resolution
    sample) of the two arrays, each pair as often as it occurs there: no
    pair is lost, repeated or mixed up with another. *)
Theorem dataset_pass_covers (shuffle : list (A * B) -> list (A * B))
    (samples_lr : list A) (samples : list B) (bs : list (list A * list B)) :
  (forall l, shuffle l ≡ₚ l) ->
  dataset shuffle samples_lr samples = Some bs ->
  concat ((fun b => zip b.1 b.2) <$> bs) ≡ₚ zip samples_lr samples.
Proof.
  intros Hperm Hds. apply dataset_Some in Hds as (Hlen & ->).
  rewrite <- list_fmap_compose.
  assert (forall cs : list (list (A * B)),
             (fun b : list A * list B => zip b.1 b.2) ∘ Dataset.stack <$> cs = cs)
    as Hid.
  { induction cs as [|c cs IH]; [reflexivity|].
    rewrite fmap_cons, IH. unfold compose. rewrite zip_stack. reflexivity. }
  rewrite Hid, batch_from_concat. apply Hperm.
Qed.

End DatasetProperties.

(** ** Average pooling *)

Lemma slice_len_multiple (r h i : nat) :
  (i < r)%nat -> Np.slice_len (r * h) i r = h.
Proof.
  intros Hi. unfold Np.slice_len. destruct h as [|h].
  - rewrite Nat.mul_0_r. cbn [Nat.sub]. apply Nat.div_small. lia.
  - assert (r <= r * S h)%nat by nia.
    symmetry. apply (Nat.div_unique _ r (S h) (r - 1 - i)); lia.
Qed.

Lemma slice_len_fits (d r i : nat) :
  (d mod r = 0 \/ d < r)%nat -> (i < r)%nat ->
  Np.broadcastable (Np.slice_len d i r) (d / r) = true.
Proof.
  intros Hd Hi. unfold Np.broadcastable. apply orb_true_iff.
  destruct Hd as [Hd|Hd].
  - left. apply Nat.eqb_eq.
    pose proof (Nat.div_mod d r ltac:(lia)) as Hdm. rewrite Hd, Nat.add_0_r in Hdm.
    rewrite Hdm at 1. apply slice_len_multiple, Hi.
  - rewrite (Nat.div_small d r Hd). unfold Np.slice_len.
    destruct (decide (i < d)%nat) as [Hid|Hid].
    + right. apply Nat.eqb_eq. symmetry.
      apply (Nat.div_unique _ r 1 (d - i - 1)); lia.
    + left. apply Nat.eqb_eq. apply Nat.div_small. lia.
Qed.

Lemma slice_len_misfit (d r : nat) :
  (0 < r)%nat -> (r <= d)%nat -> (d mod r <> 0)%nat ->
  Np.broadcastable (Np.slice_len d 0 r) (d / r) = false.
Proof.
  intros Hr0 Hr Hm.
  pose proof (Nat.div_mod d r ltac:(lia)) as Hdm.
  pose proof (Nat.mod_upper_bound d r ltac:(lia)) as Hub.
  assert (1 <= d / r)%nat as Hq.
  { apply Nat.div_le_lower_bound; lia. }
  assert (Np.slice_len d 0 r = S (d / r)) as Hs.
  { unfold Np.slice_len. rewrite Nat.sub_0_r. symmetry.
    apply (Nat.div_unique _ r (S (d / r)) (d mod r - 1)); lia. }
  unfold Np.broadcastable. rewrite Hs. apply orb_false_iff.
  split; apply Nat.eqb_neq; lia.
Qed.

Lemma bidx_in_bounds (src k : nat) : (k < src)%nat -> Np.bidx src k = k.
Proof.
  intros Hk. unfold Np.bidx. destruct (Nat.eqb_spec src 1); [lia|reflexivity].
Qed.

Lemma foldl_ext_in {X Y : Type} (f g : Y -> X -> Y) (l : list X) (a : Y) :
  (forall acc i, i ∈ l -> f acc i = g acc i) ->
  foldl f a l = foldl g a l.
Proof.
  revert a. induction l as [|i l IH]; intros a H; [reflexivity|].
  cbn [foldl]. rewrite (H a i) by (apply elem_of_cons; auto).
  apply IH. intros acc k Hk. apply H, elem_of_cons. auto.
Qed.

Section PoolingProperties.

Context `{F : Float32}.

Lemma iadd_Some (a b c : Np.Array4) :
  Np.iadd a b = Some c ->
  Np.shape c = Np.shape a
  /\ forall n y x ch,
       Np.at_ c n y x ch = round32 (Np.at_ a n y x ch + Np.read b n y x ch).
Proof.
  unfold Np.iadd. destruct (_ && _); [|discriminate].
  intros [= <-]. split; reflexivity.
Qed.

Section Pooling.

Variable r : nat.
Variable samples : Np.Array4.

Lemma iadd_fits (acc : Np.Array4) (i j : nat) :
  Np.shape acc = lr_shape r samples ->
  Np.broadcastable (Np.slice_len (Np.d1 samples) i r) (Np.d1 samples / r) = true ->
  Np.broadcastable (Np.slice_len (Np.d2 samples) j r) (Np.d2 samples / r) = true ->
  is_Some (Np.iadd acc (Np.strided samples i j r)).
Proof.
  unfold Np.shape, lr_shape. intros [= H0 H1 H2 H3] Hi Hj.
  unfold Np.iadd. cbn [Np.strided Np.d0 Np.d1 Np.d2 Np.d3].
  rewrite H0, H1, H2, H3, Hi, Hj.
  unfold Np.broadcastable. rewrite !Nat.eqb_refl. simpl. eauto.
Qed.

Lemma inner_loop (i : nat) (js : list nat) (acc : Np.Array4) :
  Np.shape acc = lr_shape r samples ->
  Np.broadcastable (Np.slice_len (Np.d1 samples) i r) (Np.d1 samples / r) = true ->
  Forall (fun j => Np.broadcastable (Np.slice_len (Np.d2 samples) j r)
                     (Np.d2 samples / r) = true) js ->
  exists acc',
    Np.for_each js (fun j a => Np.iadd a (Np.strided samples i j r)) acc
    = Some acc'
    /\ Np.shape acc' = lr_shape r samples
    /\ forall n y x c,
         Np.at_ acc' n y x c
         = foldl (fun t j =>
                    round32 (t + Np.read (Np.strided samples i j r) n y x c))
             (Np.at_ acc n y x c) js.
Proof.
  intros Hacc Hi Hjs. revert acc Hacc.
  induction Hjs as [|j js Hj Hjs IH]; intros acc Hacc.
  - exists acc. split; [reflexivity|]. split; [exact Hacc|].
    intros. reflexivity.
  - cbn [Np.for_each].
    destruct (iadd_fits acc i j Hacc Hi Hj) as [acc1 H1]. rewrite H1.
    destruct (iadd_Some _ _ _ H1) as (Hs1 & Hv1).
    destruct (IH acc1 (eq_trans Hs1 Hacc)) as (acc' & Hrun & Hs' & Hv').
    exists acc'. split; [exact Hrun|]. split; [exact Hs'|].
    intros n y x c. rewrite Hv', Hv1. reflexivity.
Qed.

Lemma outer_loop (rows : list nat) (acc : Np.Array4) :
  Np.shape acc = lr_shape r samples ->
  Forall (fun i => Np.broadcastable (Np.slice_len (Np.d1 samples) i r)
                     (Np.d1 samples / r) = true) rows ->
  Forall (fun j => Np.broadcastable (Np.slice_len (Np.d2 samples) j r)
                     (Np.d2 samples / r) = true) (seq 0 r) ->
  exists acc',
    Np.for_each rows
      (fun i a =>
         Np.for_each (seq 0 r)
           (fun j a' => Np.iadd a' (Np.strided samples i j r)) a)
      acc
    = Some acc'
    /\ Np.shape acc' = lr_shape r samples
    /\ forall n y x c,
         Np.at_ acc' n y x c
         = foldl (fun t i =>
                    foldl (fun t' j =>
                             round32
                               (t' + Np.read (Np.strided samples i j r) n y x c))
                      t (seq 0 r))
             (Np.at_ acc n y x c) rows.
Proof.
  intros Hacc His Hjs. revert acc Hacc.
  induction His as [|i rows Hi His IH]; intros acc Hacc.
  - exists acc. split; [reflexivity|]. split; [exact Hacc|].
    intros. reflexivity.
  - cbn [Np.for_each].
    destruct (inner_loop i (seq 0 r) acc Hacc Hi Hjs) as (acc1 & H1 & Hs1 & Hv1).
    rewrite H1.
    destruct (IH acc1 Hs1) as (acc' & Hrun & Hs' & Hv').
    exists acc'. split; [exact Hrun|]. split; [exact Hs'|].
    intros n y x c. rewrite Hv', Hv1. reflexivity.
Qed.

End Pooling.

Lemma iadd_misfit (a b : Np.Array4) :
  Np.broadcastable (Np.d1 b) (Np.d1 a) = false
  \/ Np.broadcastable (Np.d2 b) (Np.d2 a) = false ->
  Np.iadd a b = None.
Proof.
  intros [H|H]; unfold Np.iadd; rewrite H;
    rewrite ?andb_false_r, ?andb_false_l; reflexivity.
Qed.

Lemma seq_fits (d r : nat) :
  (d mod r = 0 \/ d < r)%nat ->
  Forall (fun i => Np.broadcastable (Np.slice_len d i r) (d / r) = true)
    (seq 0 r).
Proof.
  intros Hd. apply Forall_forall. intros i Hi. apply elem_of_seq in Hi.
  apply slice_len_fits; [exact Hd|lia].
Qed.

Lemma for_each_iadd_shape (operand : nat -> Np.Array4) (range : list nat)
    (acc acc' : Np.Array4) :
  Np.for_each range (fun j a => Np.iadd a (operand j)) acc = Some acc' ->
  Np.shape acc' = Np.shape acc.
Proof.
  revert acc. induction range as [|j range IH]; intros acc H.
  - injection H as <-. reflexivity.
  - cbn [Np.for_each] in H.
    destruct (Np.iadd acc (operand j)) as [acc1|] eqn:E; [|discriminate].
    rewrite (IH _ H). apply (iadd_Some _ _ _ E).
Qed.

Lemma average_pool_shape (r : nat) (samples samples_lr : Np.Array4) :
  average_pool r samples = Some samples_lr ->
  Np.shape samples_lr = lr_shape r samples.
Proof.
  unfold average_pool. destruct r as [|r']; [discriminate|].
  destruct (Np.for_each _ _ _) as [filled|] eqn:E; [|discriminate].
  intros [= <-].
  change (Np.shape filled = Np.shape (Np.zeros (lr_shape (S r') samples))).
  revert E. generalize (Np.zeros (lr_shape (S r') samples)).
  generalize (seq 0 (S r')) at 1.
  intros range. induction range as [|i range IH]; intros acc H.
  - injection H as <-. reflexivity.
  - cbn [Np.for_each] in H.
    destruct (Np.for_each (seq 0 (S r')) _ acc) as [acc1|] eqn:E1;
      [|discriminate].
    rewrite (IH _ H). apply (for_each_iadd_shape _ _ _ _ E1).
Qed.

Lemma average_pool_Some (r : nat) (samples : Np.Array4) :
  (0 < r)%nat ->
  (Np.d1 samples mod r = 0 \/ Np.d1 samples < r)%nat ->
  (Np.d2 samples mod r = 0 \/ Np.d2 samples < r)%nat ->
  exists filled,
    average_pool r samples = Some (Np.idiv filled (r ^ 2))
    /\ Np.shape filled = lr_shape r samples
    /\ forall n y x c,
         Np.at_ filled n y x c
         = foldl (fun t i =>
                    foldl (fun t' j =>
                             round32
                               (t' + Np.read (Np.strided samples i j r) n y x c))
                      t (seq 0 r))
             0%Q (seq 0 r).
Proof.
  intros Hr H1 H2.
  destruct (outer_loop r samples (seq 0 r) (Np.zeros (lr_shape r samples))
              eq_refl (seq_fits _ _ H1) (seq_fits _ _ H2))
    as (filled & Hrun & Hshape & Hval).
  exists filled. split; [|split; [exact Hshape|]].
  - unfold average_pool. destruct r as [|r']; [lia|]. rewrite Hrun. reflexivity.
  - intros n y x c. rewrite Hval. reflexivity.
Qed.

(** X7. When the pooling cell fails.  For a resolution factor [r] the cell
    that computes the low-resolution array runs without error exactly when
    [r] is positive and each of the two spatial dimensions of [samples] is
    a multiple of [r] or is smaller than [r]; the array it leaves has the
    shape [lr_shape]. *)
Theorem average_pool_defined_iff (r : nat) (samples : Np.Array4) :
  (is_Some (average_pool r samples)
   <-> (0 < r)%nat
       /\ (Np.d1 samples mod r = 0 \/ Np.d1 samples < r)%nat
       /\ (Np.d2 samples mod r = 0 \/ Np.d2 samples < r)%nat)
  /\ (forall samples_lr, average_pool r samples = Some samples_lr ->
        Np.shape samples_lr = lr_shape r samples).
Proof.
  assert ((0 < r)%nat
          /\ (Np.d1 samples mod r = 0 \/ Np.d1 samples < r)%nat
          /\ (Np.d2 samples mod r = 0 \/ Np.d2 samples < r)%nat
          \/ average_pool r samples = None) as [(Hr & H1 & H2)|Hnone].
  { destruct r as [|r']; [right; reflexivity|].
    destruct (decide (Np.d1 samples mod S r' = 0 \/ Np.d1 samples < S r')%nat)
      as [H1|H1].
    - destruct (decide (Np.d2 samples mod S r' = 0 \/ Np.d2 samples < S r')%nat)
        as [H2|H2]; [left; repeat split; [lia|exact H1|exact H2]|].
      right. unfold average_pool. cbn [seq Np.for_each].
      rewrite iadd_misfit; [reflexivity|]. right.
      cbn [Np.strided Np.d2 Np.zeros lr_shape].
      apply slice_len_misfit; lia.
    - right. unfold average_pool. cbn [seq Np.for_each].
      rewrite iadd_misfit; [reflexivity|]. left.
      cbn [Np.strided Np.d1 Np.zeros lr_shape].
      apply slice_len_misfit; lia. }
  - destruct (average_pool_Some r samples Hr H1 H2) as (filled & Hp & Hs & _).
    split.
    + split; [intros _; auto|intros _; rewrite Hp; eauto].
    + intros samples_lr Hlr. rewrite Hp in Hlr. injection Hlr as <-.
      exact Hs.
  - rewrite Hnone. split.
    + split; [intros [? ?]; discriminate|].
      intros (Hr & H1 & H2).
      destruct (average_pool_Some r samples Hr H1 H2) as (? & Hp & _).
      congruence.
    + intros ? ?; discriminate.
Qed.

Lemma average_pool_value_at (r h w : nat) (samples samples_lr : Np.Array4)
    (n y x c : nat) :
  (0 < r)%nat ->
  Np.d1 samples = (r * h)%nat ->
  Np.d2 samples = (r * w)%nat ->
  average_pool r samples = Some samples_lr ->
  (n < Np.d0 samples)%nat -> (y < h)%nat -> (x < w)%nat ->
  (c < Np.d3 samples)%nat ->
  Np.at_ samples_lr n y x c = block_mean r samples n y x c.
Proof.
  intros Hr H1 H2 Hlr Hn Hy Hx Hc.
  assert (Np.d1 samples mod r = 0)%nat as M1
    by (rewrite H1, Nat.mul_comm; apply Nat.Div0.mod_mul).
  assert (Np.d2 samples mod r = 0)%nat as M2
    by (rewrite H2, Nat.mul_comm; apply Nat.Div0.mod_mul).
  destruct (average_pool_Some r samples Hr (or_introl M1) (or_introl M2))
    as (filled & Hp & Hs & Hval).
  rewrite Hp in Hlr. injection Hlr as <-.
  unfold block_mean, block_total. cbn [Np.idiv Np.at_]. rewrite Hval.
  do 2 f_equal.
  apply foldl_ext_in. intros t i Hi. apply elem_of_seq in Hi.
  apply foldl_ext_in. intros t' j Hj. apply elem_of_seq in Hj.
  unfold Np.read. cbn [Np.strided Np.d0 Np.d1 Np.d2 Np.d3 Np.at_].
  rewrite H1, H2, !slice_len_multiple by lia.
  rewrite !bidx_in_bounds by assumption. reflexivity.
Qed.

Lemma lr_shape_multiple (r h w : nat) (samples : Np.Array4) :
  (0 < r)%nat ->
  Np.d1 samples = (r * h)%nat ->
  Np.d2 samples = (r * w)%nat ->
  lr_shape r samples = (Np.d0 samples, h, w, Np.d3 samples).
Proof.
  intros Hr H1 H2. unfold lr_shape. rewrite H1, H2.
  rewrite !(Nat.mul_comm r), !Nat.div_mul by lia. reflexivity.
Qed.

(** X8. What the pooling cell computes.  When the two spatial dimensions of
    [samples] are [r h] and [r w], the low-resolution array has the shape
    [(N, h, w, C)] and its element at sample [n], row [y], column [x] and
    channel [c] is the float32 mean of the [r] by [r] block of that sample
    and channel whose corner is at row [r y] and column [r x]: the
    elements of the block added in float32 one by one, row after row, and
    the total divided in float32 by [r ^ 2]. *)
Theorem average_pool_block_means (r h w : nat) (samples : Np.Array4) :
  (0 < r)%nat ->
  Np.d1 samples = (r * h)%nat ->
  Np.d2 samples = (r * w)%nat ->
  exists samples_lr,
    average_pool r samples = Some samples_lr
    /\ Np.shape samples_lr = (Np.d0 samples, h, w, Np.d3 samples)
    /\ forall n y x c,
         (n < Np.d0 samples)%nat -> (y < h)%nat -> (x < w)%nat ->
         (c < Np.d3 samples)%nat ->
         Np.at_ samples_lr n y x c = block_mean r samples n y x c.
Proof.
  intros Hr H1 H2.
  assert (Np.d1 samples mod r = 0)%nat as M1
    by (rewrite H1, Nat.mul_comm; apply Nat.Div0.mod_mul).
  assert (Np.d2 samples mod r = 0)%nat as M2
    by (rewrite H2, Nat.mul_comm; apply Nat.Div0.mod_mul).
  destruct (average_pool_Some r samples Hr (or_introl M1) (or_introl M2))
    as (filled & Hp & Hs & _).
  exists (Np.idiv filled (r ^ 2)). split; [exact Hp|]. split.
  - rewrite <- (lr_shape_multiple r h w samples Hr H1 H2), <- Hs. reflexivity.
  - intros n y x c. apply (average_pool_value_at r h w); assumption.
Qed.

(** ** The split into a test and a training set *)

Lemma take_rows_Some (a : Np.Array4) (idx : list nat) :
  Forall (fun i => (i < Np.d0 a)%nat) idx ->
  Np.take_rows a idx
  = Some (Np.mkArray (length idx) (Np.d1 a) (Np.d2 a) (Np.d3 a)
            (fun n y x c => Np.at_ a (nth n idx 0%nat) y x c)).
Proof.
  intros H. unfold Np.take_rows.
  rewrite (proj2 (forallb_forall _ _)); [reflexivity|].
  intros i Hi. apply Nat.ltb_lt.
  rewrite Forall_forall in H. apply H, list_elem_of_In, Hi.
Qed.

Lemma take_rows_inv (a b : Np.Array4) (idx : list nat) :
  Np.take_rows a idx = Some b ->
  Forall (fun i => (i < Np.d0 a)%nat) idx
  /\ b = Np.mkArray (length idx) (Np.d1 a) (Np.d2 a) (Np.d3 a)
           (fun n y x c => Np.at_ a (nth n idx 0%nat) y x c).
Proof.
  unfold Np.take_rows.
  destruct (forallb _ idx) eqn:E; [|discriminate].
  intros [= <-]. split; [|reflexivity].
  apply Forall_forall. intros i Hi.
  rewrite forallb_forall in E. apply Nat.ltb_lt, E, list_elem_of_In, Hi.
Qed.

Lemma nth_take_lt {X : Type} (l : list X) (k q : nat) (d : X) :
  (q < k)%nat -> nth q (take k l) d = nth q l d.
Proof. intros Hq. rewrite !nth_lookup, lookup_take_lt by exact Hq. reflexivity. Qed.

Lemma nth_drop {X : Type} (l : list X) (k q : nat) (d : X) :
  nth q (drop k l) d = nth (k + q) l d.
Proof. rewrite !nth_lookup, lookup_drop. reflexivity. Qed.

Lemma permutation_of_range (indices : list nat) (n : nat) :
  indices ≡ₚ seq 0 n ->
  length indices = n
  /\ NoDup indices
  /\ Forall (fun i => (i < n)%nat) indices.
Proof.
  intros Hp. split; [|split].
  - rewrite (Permutation_length Hp). apply length_seq.
  - rewrite Hp. apply NoDup_seq.
  - rewrite Hp. apply Forall_forall. intros i Hi.
    apply elem_of_seq in Hi. lia.
Qed.

Lemma prepare_Some (r : nat) (indices : list nat)
    (samples samples_lr : Np.Array4) :
  indices ≡ₚ seq 0 (Np.d0 samples) ->
  average_pool r samples = Some samples_lr ->
  exists p,
    prepare r indices samples = Some p
    /\ Np.d0 (samples_test p) = (Np.d0 samples / 10)%nat
    /\ Np.d0 (samples_train p) = (Np.d0 samples - Np.d0 samples / 10)%nat
    /\ Np.d3 (samples_test p) = Np.d3 samples
    /\ Np.d3 (samples_train p) = Np.d3 samples.
Proof.
  intros Hperm Hpool.
  destruct (permutation_of_range indices _ Hperm) as (Hlen & _ & Hall).
  assert (Np.d0 samples_lr = Np.d0 samples) as HlrN.
  { pose proof (average_pool_shape _ _ _ Hpool) as Hs.
    unfold Np.shape, lr_shape in Hs. injection Hs as H0 _ _ _. exact H0. }
  assert (Np.d0 samples / 10 <= Np.d0 samples)%nat as Hk
    by (apply Nat.Div0.div_le_upper_bound; lia).
  unfold prepare. rewrite Hpool. unfold N_testing.
  rewrite !take_rows_Some
    by (rewrite ?HlrN; first [apply Forall_take | apply Forall_drop]; exact Hall).
  eexists. split; [reflexivity|].
  cbn [samples_test samples_train Np.d0 Np.d3].
  rewrite length_take, length_drop, Hlen. repeat split; lia.
Qed.

(** X9. The split.  When [indices] is a rearrangement of
    [0, ..., N - 1] and the pooling succeeds, the data cell runs without
    error.  The test arrays hold [N / 10] samples and the training arrays
    the other [N - N / 10]: the sample at position [q] of the rearrangement
    goes to row [q] of the test arrays when [q < N / 10] and to row
    [q - N / 10] of the training arrays otherwise, in the high-resolution
    and in the low-resolution array alike; every sample of the input is at
    exactly one position of the rearrangement, hence in exactly one row of
    exactly one of the two sets. *)
Theorem prepare_split (r : nat) (indices : list nat)
    (samples samples_lr : Np.Array4) :
  indices ≡ₚ seq 0 (Np.d0 samples) ->
  average_pool r samples = Some samples_lr ->
  let N := Np.d0 samples in
  let k := (N / 10)%nat in
  exists p,
    prepare r indices samples = Some p
    /\ Np.d0 (samples_test p) = k /\ Np.d0 (samples_lr_test p) = k
    /\ Np.d0 (samples_train p) = (N - k)%nat
    /\ Np.d0 (samples_lr_train p) = (N - k)%nat
    /\ (forall q y x c, (q < k)%nat ->
          Np.at_ (samples_test p) q y x c
          = Np.at_ samples (nth q indices 0%nat) y x c
          /\ Np.at_ (samples_lr_test p) q y x c
             = Np.at_ samples_lr (nth q indices 0%nat) y x c)
    /\ (forall q y x c, (k <= q)%nat ->
          Np.at_ (samples_train p) (q - k) y x c
          = Np.at_ samples (nth q indices 0%nat) y x c
          /\ Np.at_ (samples_lr_train p) (q - k) y x c
             = Np.at_ samples_lr (nth q indices 0%nat) y x c)
    /\ (forall n, (n < N)%nat ->
          exists q, (q < N)%nat /\ nth q indices 0%nat = n
                    /\ forall q', (q' < N)%nat ->
                         nth q' indices 0%nat = n -> q' = q).
Proof.
  intros Hperm Hpool N k.
  destruct (permutation_of_range indices N Hperm) as (Hlen & Hnd & Hall).
  assert (Np.d0 samples_lr = N) as HlrN.
  { pose proof (average_pool_shape _ _ _ Hpool) as Hs.
    unfold Np.shape, lr_shape in Hs. injection Hs as H0 _ _ _. exact H0. }
  assert (k <= N)%nat as Hk by (subst k; apply Nat.Div0.div_le_upper_bound; lia).
  unfold prepare. rewrite Hpool. fold N. unfold N_testing. fold k.
  rewrite !take_rows_Some
    by (rewrite ?HlrN; first [apply Forall_take | apply Forall_drop]; exact Hall).
  eexists. split; [reflexivity|].
  cbn [samples_test samples_train samples_lr_test samples_lr_train
       Np.d0 Np.at_].
  rewrite length_take, length_drop, Hlen.
  repeat apply conj; try lia.
  - intros q y x c Hq. rewrite nth_take_lt by exact Hq. auto.
  - intros q y x c Hq. rewrite nth_drop.
    replace (k + (q - k))%nat with q by lia. auto.
  - intros n Hn.
    assert (n ∈ indices) as Hin by (rewrite Hperm; apply elem_of_seq; lia).
    apply list_elem_of_lookup in Hin as [q Hq].
    exists q. split; [rewrite <- Hlen; eapply lookup_lt_Some, Hq|].
    split; [rewrite nth_lookup, Hq; reflexivity|].
    intros q' Hq' Hnth.
    destruct (lookup_lt_is_Some_2 indices q' ltac:(lia)) as [z Hz].
    rewrite nth_lookup, Hz in Hnth. simpl in Hnth. subst z.
    apply (NoDup_lookup indices q' q n Hnd Hz Hq).
Qed.

(** X10. Pooling and splitting commute.  After the data cell, with spatial
    dimensions [r h] and [r w], each row of the low-resolution training
    array is what the pooling computes of the same row of the
    high-resolution training array, the float32 means of its blocks, and
    likewise for the test arrays. *)
Theorem prepare_keeps_pairs (r h w : nat) (indices : list nat)
    (samples : Np.Array4) (p : Prepared) :
  (0 < r)%nat ->
  Np.d1 samples = (r * h)%nat ->
  Np.d2 samples = (r * w)%nat ->
  prepare r indices samples = Some p ->
  (Np.shape (samples_lr_train p)
   = (Np.d0 (samples_train p), h, w, Np.d3 (samples_train p))
   /\ forall q y x c,
        (q < Np.d0 (samples_train p))%nat -> (y < h)%nat -> (x < w)%nat ->
        (c < Np.d3 (samples_train p))%nat ->
        Np.at_ (samples_lr_train p) q y x c
        = block_mean r (samples_train p) q y x c)
  /\ (Np.shape (samples_lr_test p)
      = (Np.d0 (samples_test p), h, w, Np.d3 (samples_test p))
      /\ forall q y x c,
           (q < Np.d0 (samples_test p))%nat -> (y < h)%nat -> (x < w)%nat ->
           (c < Np.d3 (samples_test p))%nat ->
           Np.at_ (samples_lr_test p) q y x c
           = block_mean r (samples_test p) q y x c).
Proof.
  intros Hr H1 H2 Hprep. unfold prepare in Hprep.
  destruct (average_pool r samples) as [samples_lr|] eqn:Hpool; [|discriminate].
  set (k := N_testing (Np.d0 samples)) in *.
  destruct (Np.take_rows samples (take k indices)) as [s_test|] eqn:E1;
    [|discriminate].
  destruct (Np.take_rows samples (drop k indices)) as [s_train|] eqn:E2;
    [|discriminate].
  destruct (Np.take_rows samples_lr (take k indices)) as [l_test|] eqn:E3;
    [|discriminate].
  destruct (Np.take_rows samples_lr (drop k indices)) as [l_train|] eqn:E4;
    [|discriminate].
  injection Hprep as <-.
  cbn [samples_test samples_train samples_lr_test samples_lr_train].
  pose proof (average_pool_shape _ _ _ Hpool) as Hs.
  rewrite (lr_shape_multiple r h w samples Hr H1 H2) in Hs.
  unfold Np.shape in Hs. injection Hs as S0 S1 S2 S3.
  apply take_rows_inv in E1 as (F1 & ->). apply take_rows_inv in E2 as (F2 & ->).
  apply take_rows_inv in E3 as (F3 & ->). apply take_rows_inv in E4 as (F4 & ->).
  unfold Np.shape. cbn [Np.d0 Np.d1 Np.d2 Np.d3 Np.at_].
  rewrite S1, S2, S3.
  split; (split; [reflexivity|]); intros q y x c Hq Hy Hx Hc.
  - rewrite Forall_forall in F2.
    assert (nth q (drop k indices) 0 < Np.d0 samples)%nat as Hn.
    { apply F2. destruct (lookup_lt_is_Some_2 _ q Hq) as [z Hz].
      rewrite nth_lookup, Hz. apply list_elem_of_lookup. eauto. }
    rewrite (average_pool_value_at r h w samples samples_lr _ y x c
               Hr H1 H2 Hpool Hn Hy Hx Hc).
    reflexivity.
  - rewrite Forall_forall in F1.
    assert (nth q (take k indices) 0 < Np.d0 samples)%nat as Hn.
    { apply F1. destruct (lookup_lt_is_Some_2 _ q Hq) as [z Hz].
      rewrite nth_lookup, Hz. apply list_elem_of_lookup. eauto. }
    rewrite (average_pool_value_at r h w samples samples_lr _ y x c
               Hr H1 H2 Hpool Hn Hy Hx Hc).
    reflexivity.
Qed.

End PoolingProperties.

(** ** The shapes in the two networks *)

Lemma same_length_1 (n : positive) : Layers.same_length 1 n = n.
Proof.
  unfold Layers.same_length.
  replace (Z.pos n + 1 - 1)%Z with (Z.pos n) by lia.
  rewrite Z.div_1_r. reflexivity.
Qed.

Lemma same_length_2_double (n : positive) :
  Layers.same_length 2 (2 * n) = n.
Proof.
  unfold Layers.same_length.
  replace (Z.pos (2 * n) + 2 - 1)%Z with (1 + Z.pos n * 2)%Z by lia.
  rewrite Z.div_add by lia. reflexivity.
Qed.

Lemma halvings_of_doublings (k : nat) (n : positive) :
  Nat.iter k (Layers.same_length 2) (Pos.shiftl_nat n k) = n.
Proof.
  induction k as [|k IH]; [reflexivity|].
  rewrite Nat.iter_succ_r. cbn [Pos.shiftl_nat nat_rect].
  fold (Pos.shiftl_nat n k).
  change ((Pos.shiftl_nat n k)~0)%positive with (2 * Pos.shiftl_nat n k)%positive.
  rewrite same_length_2_double. exact IH.
Qed.

Lemma shiftl_nat_double (k : nat) (n : positive) :
  Pos.shiftl_nat (2 * n) k = Pos.shiftl_nat n (S k).
Proof.
  induction k as [|k IH]; [reflexivity|].
  cbn [Pos.shiftl_nat nat_rect] in *. rewrite IH. reflexivity.
Qed.

Lemma generator_stages_shape (ws : list positive) (h w c : positive) :
  exists c',
    generator_stages ws (h, w, c)
    = (Pos.shiftl_nat h (length ws), Pos.shiftl_nat w (length ws), c').
Proof.
  revert h w c. induction ws as [|width ws IH]; intros h w c.
  - exists c. reflexivity.
  - unfold generator_stages in *. cbn [foldl length].
    unfold Layers.leaky_relu_layer, Layers.upsampling2d, Layers.conv2d_same.
    rewrite !same_length_1.
    destruct (IH (2 * h)%positive (2 * w)%positive width) as (c' & Hc').
    unfold Layers.leaky_relu_layer, Layers.upsampling2d, Layers.conv2d_same
      in Hc'.
    exists c'. rewrite Hc', !shiftl_nat_double. reflexivity.
Qed.

Lemma discriminator_stages_shape (ws : list positive)
    (H W C h w c : positive) :
  exists C' c',
    discriminator_stages ws (H, W, C) (h, w, c)
    = ((Nat.iter (length ws) (Layers.same_length 2) H,
        Nat.iter (length ws) (Layers.same_length 2) W, C'),
       (h, w, c')).
Proof.
  revert H W C c. induction ws as [|width ws IH]; intros H W C c.
  - exists C, c. reflexivity.
  - unfold discriminator_stages in *. cbn [foldl length].
    unfold Layers.leaky_relu_layer, Layers.conv2d_same.
    rewrite !same_length_1.
    destruct (IH (Layers.same_length 2 H) (Layers.same_length 2 W) width width)
      as (C' & c' & HE).
    unfold Layers.leaky_relu_layer, Layers.conv2d_same in HE.
    exists C', c'. rewrite HE, !Nat.iter_succ_r. reflexivity.
Qed.

(** X11. The output of the generator.  Building the generator succeeds
    exactly when there is at least one block and the low-resolution input
    and the noise have the same rows and columns; the model then returns
    one channel, with the rows and the columns of its input doubled once
    per block. *)
Theorem create_generator_shape (block_widths : list positive)
    (h w c h' w' c' : positive) (out : Layers.Shape) :
  create_generator block_widths (h, w, c) (h', w', c') = Some out
  <-> block_widths <> [] /\ h = h' /\ w = w'
      /\ out = (Pos.shiftl_nat h (length block_widths),
                Pos.shiftl_nat w (length block_widths), 1%positive).
Proof.
  unfold create_generator, Layers.concatenate.
  destruct (decide (h = h' /\ w = w')) as [[<- <-]|Hne].
  - destruct block_widths as [|width0 ws].
    + split; [discriminate|intros (H & _); congruence].
    + unfold Layers.leaky_relu_layer at 1. unfold Layers.conv2d_same at 1.
      rewrite !same_length_1.
      destruct (generator_stages_shape (width0 :: ws) h w width0)
        as (cl & ->).
      unfold Layers.conv2d_valid.
      destruct (decide _) as [_|Hk]; [|exfalso; apply Hk; split; lia].
      replace (Z.to_pos (Z.pos (Pos.shiftl_nat h (length (width0 :: ws))) - 1 + 1))
        with (Pos.shiftl_nat h (length (width0 :: ws))) by lia.
      replace (Z.to_pos (Z.pos (Pos.shiftl_nat w (length (width0 :: ws))) - 1 + 1))
        with (Pos.shiftl_nat w (length (width0 :: ws))) by lia.
      split.
      * intros [= <-]. repeat split. discriminate.
      * intros (_ & _ & _ & ->). reflexivity.
  - split; [discriminate|]. intros (_ & Hh & Hw & _). tauto.
Qed.

(** X12. When the discriminator can be built.  Building the discriminator
    succeeds exactly when there is at least one block and the rows and the
    columns of the high-resolution input, halved (rounding up) once per
    block, are the rows and the columns of the low-resolution input; the
    model then returns one score per sample. *)
Theorem create_discriminator_defined_iff (block_widths : list positive)
    (H W C h w c : positive) (postproc_convs : nat) (scores : positive) :
  create_discriminator block_widths (H, W, C) (h, w, c) postproc_convs
  = Some scores
  <-> block_widths <> []
      /\ Nat.iter (length block_widths) (Layers.same_length 2) H = h
      /\ Nat.iter (length block_widths) (Layers.same_length 2) W = w
      /\ scores = 1%positive.
Proof.
  unfold create_discriminator.
  destruct block_widths as [|width0 ws].
  - split; [discriminate|intros (Hne & _); congruence].
  - unfold Layers.leaky_relu_layer at 1 2. unfold Layers.conv2d_same at 1 2.
    rewrite !same_length_1.
    destruct (discriminator_stages_shape (width0 :: ws) H W width0 h w width0)
      as (C' & c' & ->).
    unfold Layers.concatenate.
    destruct (decide _) as [[E1 E2]|Hne].
    + unfold Layers.dense. split.
      * intros [= <-]. repeat split; [discriminate|exact E1|exact E2].
      * intros (_ & _ & _ & ->). reflexivity.
    + split; [discriminate|]. intros (_ & E1 & E2 & _). tauto.
Qed.

(** X13. The two networks fit together.  Whatever the shape of the
    low-resolution input, what a generator with some number of blocks
    returns is accepted, together with that low-resolution input, by a
    discriminator with the same number of blocks, which returns one score
    per sample. *)
Theorem discriminator_accepts_generator (widths_g widths_d : list positive)
    (lr noise out : Layers.Shape) (postproc_convs : nat) :
  create_generator widths_g lr noise = Some out ->
  length widths_d = length widths_g ->
  create_discriminator widths_d out lr postproc_convs = Some 1%positive.
Proof.
  destruct lr as [[h w] c]. destruct noise as [[h' w'] c'].
  unfold create_generator, Layers.concatenate.
  destruct (decide (h = h' /\ w = w')) as [[<- <-]|Hne]; [|discriminate].
  destruct widths_g as [|g0 wg]; [discriminate|].
  unfold Layers.leaky_relu_layer at 1. unfold Layers.conv2d_same at 1.
  rewrite !same_length_1.
  destruct (generator_stages_shape (g0 :: wg) h w g0) as (cl & ->).
  unfold Layers.conv2d_valid.
  destruct (decide _) as [_|Hk]; [|exfalso; apply Hk; split; lia].
  replace (Z.to_pos (Z.pos (Pos.shiftl_nat h (length (g0 :: wg))) - 1 + 1))
    with (Pos.shiftl_nat h (length (g0 :: wg))) by lia.
  replace (Z.to_pos (Z.pos (Pos.shiftl_nat w (length (g0 :: wg))) - 1 + 1))
    with (Pos.shiftl_nat w (length (g0 :: wg))) by lia.
  intros [= <-] Hlen.
  destruct widths_d as [|d0 wd]; [discriminate|].
  unfold create_discriminator.
  unfold Layers.leaky_relu_layer at 1 2. unfold Layers.conv2d_same at 1 2.
  rewrite !same_length_1.
  match goal with
  | |- context [discriminator_stages _ (?H0, ?W0, _) _] =>
      destruct (discriminator_stages_shape (d0 :: wd) H0 W0 d0 h w d0)
        as (C' & c'' & ->)
  end.
  change ((Pos.shiftl_nat h (length wg))~0)%positive
    with (Pos.shiftl_nat h (length (g0 :: wg))).
  change ((Pos.shiftl_nat w (length wg))~0)%positive
    with (Pos.shiftl_nat w (length (g0 :: wg))).
  rewrite Hlen, !halvings_of_doublings.
  unfold Layers.concatenate.
  destruct (decide _) as [_|Hne]; [reflexivity|tauto].
Qed.

(** X14. A layer without effect.  In the discriminator the first
    convolution of each branch already applies [relu]; the [LeakyReLU]
    that follows it leaves every value as it is, whatever its slope. *)
Theorem leaky_relu_after_relu (alpha : Q) (xs : list Q) :
  leaky_relu alpha <$> (relu <$> xs) = relu <$> xs.
Proof.
  rewrite <- list_fmap_compose. apply list_fmap_ext. intros _ x _.
  unfold compose, leaky_relu, relu.
  destruct (Qle_bool 0 x) eqn:E; [rewrite E; reflexivity|reflexivity].
Qed.

(** ** The values before the logarithm *)

(** X15. The logarithm is taken of positive finite values only.  Once the
    missing data are set to zero and the threshold is applied, every value
    is finite and is either the floor value [0.02] or at least [0.1]: a
    value that was not finite or lay below [0.1] became [0.02], every
    other value is unchanged. *)
Theorem before_log_values (samples : list Float.t) :
  length (before_log samples) = length samples
  /\ Forall (fun x => exists q, x = Float.Finite q
                                /\ (q = 2 # 100 \/ (1 # 10 <= q)%Q)
                                /\ (0 < q)%Q)
       (before_log samples)
  /\ forall i x, samples !! i = Some x ->
       before_log samples !! i
       = Some match x with
              | Float.Finite q =>
                  if Qle_bool (1 # 10) q then x else Float.Finite (2 # 100)
              | _ => Float.Finite (2 # 100)
              end.
Proof.
  unfold before_log, threshold, fill_missing.
  split; [rewrite !length_fmap; reflexivity|]. split.
  - rewrite <- list_fmap_compose. apply Forall_fmap, Forall_true.
    intros x. unfold compose.
    destruct x as [q| | |]; cbn [Float.isfinite Float.lt_const];
      try (exists (2 # 100); split; [reflexivity|]; split; [left|]; reflexivity).
    destruct (Qle_bool (1 # 10) q) eqn:E; cbn [negb].
    + exists q. split; [reflexivity|]. apply Qle_bool_iff in E.
      split; [right; exact E|].
      eapply Qlt_le_trans; [|exact E]. reflexivity.
    + exists (2 # 100). split; [reflexivity|]. split; [left|]; reflexivity.
  - intros i x Hx. rewrite !list_lookup_fmap, Hx. cbn [fmap option_fmap option_map].
    f_equal. destruct x as [q| | |]; cbn [Float.isfinite Float.lt_const];
      try reflexivity.
    destruct (Qle_bool (1 # 10) q); reflexivity.
Qed.

(** ** The examples shown from the test set *)

(** X16. The cells that show examples pick the rows 2, 5, ..., 37 of the
    test arrays.  After the split this selection is within bounds exactly
    when the test set has at least 38 samples, that is when the input has
    at least 380. *)
Theorem showcase_needs_380_samples `{F : Float32} (r : nat)
    (indices : list nat) (samples : Np.Array4) (p : Prepared) :
  indices ≡ₚ seq 0 (Np.d0 samples) ->
  prepare r indices samples = Some p ->
  (is_Some (Np.take_rows (samples_test p) showcase_indices)
   <-> (380 <= Np.d0 samples)%nat)
  /\ (is_Some (Np.take_rows (samples_lr_test p) showcase_indices)
      <-> (380 <= Np.d0 samples)%nat).
Proof.
  intros Hperm Hprep.
  destruct (permutation_of_range indices _ Hperm) as (Hlen & _ & _).
  unfold prepare in Hprep.
  destruct (average_pool r samples) as [samples_lr|]; [|discriminate].
  set (k := N_testing (Np.d0 samples)) in *.
  destruct (Np.take_rows samples (take k indices)) as [s_test|] eqn:E1;
    [|discriminate].
  destruct (Np.take_rows samples (drop k indices)) as [s_train|];
    [|discriminate].
  destruct (Np.take_rows samples_lr (take k indices)) as [l_test|] eqn:E3;
    [|discriminate].
  destruct (Np.take_rows samples_lr (drop k indices)) as [l_train|];
    [|discriminate].
  injection Hprep as <-. cbn [samples_test samples_lr_test].
  apply take_rows_inv in E1 as (_ & ->). apply take_rows_inv in E3 as (_ & ->).
  assert (length (take k indices) = k) as Hk.
  { rewrite length_take, Hlen. subst k. unfold N_testing.
    pose proof (Nat.Div0.div_le_upper_bound (Np.d0 samples) 10 (Np.d0 samples)).
    lia. }
  assert ((38 <= k)%nat <-> (380 <= Np.d0 samples)%nat) as Hiff.
  { subst k. unfold N_testing.
    pose proof (Nat.div_mod (Np.d0 samples) 10 ltac:(lia)).
    pose proof (Nat.mod_upper_bound (Np.d0 samples) 10 ltac:(lia)). lia. }
  unfold Np.take_rows. cbn [Np.d0]. rewrite Hk.
  assert (forallb (fun i => i <? k)%nat showcase_indices = true <-> (38 <= k)%nat)
    as Hall.
  { unfold showcase_indices. cbn [forallb].
    rewrite !andb_true_iff, !Nat.ltb_lt. lia. }
  destruct (forallb (fun i => i <? k)%nat showcase_indices).
  - split; (split; [intros _; apply Hiff, Hall; reflexivity|eauto]).
  - split; (split; [intros [? ?]; discriminate|]);
      intros H; apply Hiff, Hall in H; discriminate.
Qed.

(** ** Concrete runs of the added models *)
Section ConcreteExtras.

Import Stub.

(** Five calls whose discriminator losses are [13], [3989/256] and
    [31/4]: the fifth call returns the float32 quotient of their total
    [9301/256] by [3]. *)
Lemma returned_losses_are_prefix_means_witness :
  exists e,
    (run gan0 seed [batch1; batch2; batch1; batch2; batch1]).1 !! 4%nat
    = Some e
    /\ ev_logs e !! "d_loss" = Some (12698965 # 1048576).
Proof.
  destruct (lookup_lt_is_Some_2
              (run gan0 seed [batch1; batch2; batch1; batch2; batch1]).1 4%nat)
    as [e He]; [vm_compute; lia|].
  destruct (returned_losses_are_prefix_means (B := backend) 1%Q 1%Q 0%nat 0%nat
              seed [batch1; batch2; batch1; batch2; batch1] 4%nat e He)
    as (Hd & _).
  exists e. split; [exact He|]. rewrite Hd. vm_compute. reflexivity.
Defined.

Example default_networks :
  create_generator generator_block_widths input_shape_lr input_noise_shape
  = Some input_shape_hr
  /\ create_discriminator discriminator_block_widths input_shape_hr
       input_shape_lr 2
     = Some 1%positive.
Proof. split; vm_compute; reflexivity. Qed.

Lemma discriminator_accepts_generator_witness :
  create_discriminator discriminator_block_widths input_shape_hr
    input_shape_lr 2
  = Some 1%positive.
Proof.
  apply (discriminator_accepts_generator generator_block_widths
           discriminator_block_widths input_shape_lr input_noise_shape
           input_shape_hr 2); reflexivity.
Defined.

Lemma dataset_batches_witness :
  exists bs,
    dataset Demo.backwards Demo.lows Demo.highs = Some bs
    /\ length bs = 3%nat
    /\ Forall (fun b => length b.1 = length b.2
                        /\ (1 <= length b.1 <= 64)%nat) bs.
Proof.
  destruct (dataset Demo.backwards Demo.lows Demo.highs) as [bs|] eqn:E;
    [|vm_compute in E; discriminate].
  destruct (dataset_batches Demo.backwards Demo.lows Demo.highs bs)
    as (Hall & _ & _ & Hcount);
    [intros l; apply reverse_Permutation | exact E |].
  exists bs. split; [reflexivity|]. split; [exact Hcount|exact Hall].
Defined.

Lemma dataset_pass_covers_witness :
  exists bs,
    dataset Demo.backwards Demo.lows Demo.highs = Some bs
    /\ concat ((fun b => zip b.1 b.2) <$> bs) ≡ₚ zip Demo.lows Demo.highs.
Proof.
  destruct (dataset Demo.backwards Demo.lows Demo.highs) as [bs|] eqn:E;
    [|vm_compute in E; discriminate].
  exists bs. split; [reflexivity|].
  apply (dataset_pass_covers Demo.backwards Demo.lows Demo.highs bs);
    [intros l; apply reverse_Permutation | exact E].
Defined.

Example pooling_rounds :
  match average_pool (H := IEEE.float32) 2 Demo.tiny with
  | Some samples_lr => Np.at_ samples_lr 0 0 0 0 = (1 # 4)%Q
  | None => False
  end.
Proof. vm_compute. reflexivity. Qed.

Lemma average_pool_block_means_witness :
  exists samples_lr,
    average_pool (H := IEEE.float32) 2 Demo.images = Some samples_lr
    /\ Np.shape samples_lr = (20, 2, 3, 1)%nat
    /\ Np.at_ samples_lr 1 1 2 0 = (259 # 2)%Q.
Proof.
  destruct (average_pool_block_means (F := IEEE.float32) 2 2 3 Demo.images)
    as (samples_lr & Hp & Hs & Hv); [lia | reflexivity | reflexivity |].
  exists samples_lr. split; [exact Hp|]. split; [exact Hs|].
  rewrite (Hv 1 1 2 0)%nat by (simpl; lia). vm_compute. reflexivity.
Defined.

Lemma prepare_split_witness :
  exists p,
    prepare (H := IEEE.float32) 2 Demo.order Demo.images = Some p
    /\ Np.d0 (samples_test p) = 2%nat
    /\ Np.d0 (samples_train p) = 18%nat.
Proof.
  destruct (average_pool_Some (F := IEEE.float32) 2 Demo.images)
    as (filled & Hpool & _); [lia | left; reflexivity | left; reflexivity |].
  destruct (prepare_split (F := IEEE.float32) 2 Demo.order Demo.images _
              (reverse_Permutation _) Hpool)
    as (p & Hp & H1 & _ & H2 & _).
  exists p. split; [exact Hp|]. split; [exact H1|exact H2].
Defined.

Lemma prepare_keeps_pairs_witness :
  exists p,
    prepare (H := IEEE.float32) 2 Demo.order Demo.images = Some p
    /\ Np.at_ (samples_lr_train p) 0 1 2 0
       = block_mean (H := IEEE.float32) 2 (samples_train p) 0 1 2 0.
Proof.
  destruct (average_pool_Some (F := IEEE.float32) 2 Demo.images)
    as (filled & Hpool & _); [lia | left; reflexivity | left; reflexivity |].
  destruct (prepare_Some (F := IEEE.float32) 2 Demo.order Demo.images _
              (reverse_Permutation _) Hpool)
    as (p & Hp & _ & H0 & _ & H3).
  destruct (prepare_keeps_pairs (F := IEEE.float32) 2 2 3 Demo.order
              Demo.images p)
    as ((_ & Hv) & _); [lia | reflexivity | reflexivity | exact Hp |].
  exists p. split; [exact Hp|].
  apply Hv; rewrite ?H0, ?H3; simpl; lia.
Defined.

Lemma showcase_needs_380_samples_witness :
  exists p,
    prepare (H := IEEE.float32) 2 Demo.order Demo.images = Some p
    /\ ~ is_Some (Np.take_rows (samples_test p) showcase_indices).
Proof.
  destruct (average_pool_Some (F := IEEE.float32) 2 Demo.images)
    as (filled & Hpool & _); [lia | left; reflexivity | left; reflexivity |].
  destruct (prepare_Some (F := IEEE.float32) 2 Demo.order Demo.images _
              (reverse_Permutation _) Hpool)
    as (p & Hp & _).
  destruct (showcase_needs_380_samples (F := IEEE.float32) 2 Demo.order
              Demo.images p (reverse_Permutation _) Hp)
    as ((H & _) & _).
  exists p. split; [exact Hp|].
  intros Hs. apply H in Hs. simpl in Hs. lia.
Defined.

End ConcreteExtras.
